(** * The layer plotter of the RAiDER tutorial notebooks

    A shallow embedding of [plot_layer], the plotting helper that the
    tutorial notebook defines for GDAL-compatible rasters, together with the
    properties its description states.

    Pixels, geotransform coefficients and no-data values are IEEE binary64
    numbers (Rocq's primitive floats): GDAL hands the no-data value and the
    geotransform to Python as doubles.  The rasters of this development are
    rasters of real-valued bands of GDAL type Float64, which NumPy reads as
    float64 arrays, so that [arr > 1e20] and [arr == NoData] are the
    binary64 comparisons.  Bands of other types are not modelled: NumPy
    compares a Float32 array with a Python float in float32 (against the
    float32 nearest to [1e20]), and [imshow] refuses complex data.  Python
    integers are [Z], Python strings are [string].

    The notebook uses [gdal], [make_axes_locatable] and [FuncFormatter]
    without importing them; they are taken to be bound to [osgeo.gdal],
    [mpl_toolkits.axes_grid1.make_axes_locatable] and
    [matplotlib.ticker.FuncFormatter], and GDAL exceptions are enabled
    ([gdal.UseExceptions()], first code cell). *)

From Stdlib Require Import ZArith List String Ascii Bool Lia.
From Stdlib Require Import Floats.PrimFloat Numbers.Cyclic.Int63.Uint63.
From Stdlib Require Import Floats.SpecFloat Floats.FloatOps Floats.FloatAxioms.
Import ListNotations.

Local Open Scope string_scope.
Local Open Scope list_scope.

(* ------------------------------------------------------------------ *)
(** ** Python strings *)

Module PyStr.

(** [s.startswith(p)] *)
Definition startswith (s p : string) : bool := String.prefix p s.

(** [s.endswith(p)]: the last [len(p)] characters of [s] are [p]. *)
Definition endswith (s p : string) : bool :=
  (String.length p <=? String.length s)%nat &&
  String.eqb
    (String.substring (String.length s - String.length p) (String.length p) s)
    p.

(** [s.rfind(c) + 1] for a one-character [c]: the position just after the
    last occurrence of [c], and [0] when there is none ([rfind] gives
    [-1]). *)
Fixpoint rfind_succ (c : ascii) (s : string) : nat :=
  match s with
  | EmptyString => 0
  | String a r =>
      match rfind_succ c r with
      | 0 => if Ascii.eqb a c then 1 else 0
      | S k => S (S k)
      end
  end.

(** [s == c * len(s)] *)
Fixpoint all_char (c : ascii) (s : string) : bool :=
  match s with
  | EmptyString => true
  | String a r => Ascii.eqb a c && all_char c r
  end.

(** [s.rstrip(c)] *)
Fixpoint rstrip (c : ascii) (s : string) : string :=
  match s with
  | EmptyString => EmptyString
  | String a r =>
      match rstrip c r with
      | EmptyString => if Ascii.eqb a c then EmptyString else String a EmptyString
      | r' => String a r'
      end
  end.

(** [s[:i]] and [s[i:]] for [0 <= i] *)
Definition take (i : nat) (s : string) : string := String.substring 0 i s.
Definition drop (i : nat) (s : string) : string :=
  String.substring i (String.length s - i) s.

(** [not s] for an optional string argument: [None] and [''] are falsy. *)
Definition falsy (s : option string) : bool :=
  match s with
  | None => true
  | Some EmptyString => true
  | Some _ => false
  end.

End PyStr.

(* ------------------------------------------------------------------ *)
(** ** [os.path] (posixpath) *)

Module OsPath.

Definition sep : ascii := "/"%char.

(** [os.path.dirname]:
    [i = p.rfind(sep) + 1; head = p[:i];
     if head and head != sep*len(head): head = head.rstrip(sep)] *)
Definition dirname (p : string) : string :=
  let i := PyStr.rfind_succ sep p in
  let head := PyStr.take i p in
  if negb (String.eqb head "") && negb (PyStr.all_char sep head)
  then PyStr.rstrip sep head
  else head.

(** [os.path.basename]: [i = p.rfind(sep) + 1; return p[i:]] *)
Definition basename (p : string) : string :=
  PyStr.drop (PyStr.rfind_succ sep p) p.

End OsPath.

(* ------------------------------------------------------------------ *)
(** ** NumPy masked arrays *)

Module Np.

Definition ndarray (A : Type) := list (list A).

(** A masked array: its data and its mask as [np.ma.getmaskarray] gives
    it, one boolean per element.  (NumPy stores a mask without any [True]
    as the scalar [nomask]; [getmaskarray] and [imshow] read that as no
    element masked.) *)
Record MaskedArray := mkMasked {
  ma_data : ndarray float;
  ma_mask : ndarray bool
}.

Definition elementwise {A B} (f : A -> B) (a : ndarray A) : ndarray B :=
  map (map f) a.

(** [a | b] on boolean arrays of one shape *)
Definition bor (a b : ndarray bool) : ndarray bool :=
  map (fun rr => map (fun xy => orb (fst xy) (snd xy)) (combine (fst rr) (snd rr)))
      (combine a b).

(** [arr > t] for a float64 array and a Python float: the binary64
    comparison, element by element. *)
Definition gt (arr : ndarray float) (t : float) : ndarray bool :=
  elementwise (fun v => PrimFloat.ltb t v) arr.

(** [arr == x] for a float64 array, where [x] is a Python float or
    [None]: the binary64 comparison, element by element; comparing with
    [None] is [False] at every element. *)
Definition eq_scalar (arr : ndarray float) (x : option float) : ndarray bool :=
  elementwise (fun v => match x with
                        | Some s => PrimFloat.eqb v s
                        | None => false
                        end) arr.

(** [np.ma.masked_where(cond, arr)]: the data are kept, the mask is
    [cond]. *)
Definition masked_where (cond : ndarray bool) (arr : ndarray float) : MaskedArray :=
  mkMasked arr cond.

Definition at2 {A} (a : ndarray A) (r c : nat) : option A :=
  match nth_error a r with
  | Some row => nth_error row c
  | None => None
  end.

End Np.

(* ------------------------------------------------------------------ *)
(** ** Exceptions, the world, and the monad of Python code *)

Inductive Exn :=
| GdalError (msg : string)       (* RuntimeError raised by GDAL *)
| PyException (msg : string)     (* raise Exception(msg) *)
| ValueError (msg : string)
| IndexError (msg : string).

(** What [raster.GetNoDataValue()] does for a band. *)
Inductive NoDataLookup :=
| NoDataRaises                   (* the driver cannot answer: GDAL raises *)
| NoDataIs (v : option float).   (* a value, or Python [None] *)

(** A band of GDAL type Float64: the float64 array that
    [raster.ReadAsArray()] returns and what the no-data lookup does. *)
Record Band := mkBand {
  ReadAsArray : Np.ndarray float;
  GetNoDataValue : NoDataLookup
}.

Record GeoTransform := mkTrans {
  t0 : float; t1 : float; t2 : float; t3 : float; t4 : float; t5 : float
}.

Record Dataset := mkDataset {
  GetGeoTransform : GeoTransform;
  RasterXSize : Z;
  RasterYSize : Z;
  bands : list Band
}.

Definition RasterCount (ds : Dataset) : Z := Z.of_nat (List.length (bands ds)).

Inductive Colormap :=
| cm_Greys_r | cm_coolwarm | cm_terrain
| cmap_named (name : string).

Inductive ColorbarStyle :=
| cb_plain
| cb_format3                          (* format='{:.3f}' *)
| cb_ticks (ticks : list (option Z)). (* ticks=[vmin, vmax] *)

Record Image := mkImage {
  im_data : Np.MaskedArray;
  im_cmap : Colormap;
  im_vmin : option Z;
  im_vmax : option Z;
  im_extent : list float
}.

Record Colorbar := mkColorbar {
  cb_side : string; cb_size : string; cb_pad : float;
  cb_style : ColorbarStyle
}.

Record Axes := mkAxes {
  ax_image : option Image;
  ax_colorbar : option Colorbar;
  ax_title : option string;
  ax_grid : option bool;
  ax_ylabel : option string;
  ax_xlabel : option string
}.

Definition blank_axes : Axes := mkAxes None None None None None None.

Record Figure := mkFigure {
  fig_nrows : Z;
  fig_ncols : Z;
  fig_wspace : option float;
  fig_axes : list Axes
}.

(** The state a call can read or change: the rasters GDAL can open, what
    was printed, the figures pyplot holds, and the "under" colour of the
    shared [Greys_r] colormap object. *)
Record World := mkWorld {
  rasters : list (string * Dataset);
  stdout : list string;
  figures : list Figure;
  Greys_r_under : option string
}.

Inductive Outcome (A : Type) :=
| Returned (a : A)
| Raised (e : Exn).
Arguments Returned {A} a.
Arguments Raised {A} e.

Definition Py (A : Type) : Type := World -> World * Outcome A.

Definition ret {A} (a : A) : Py A := fun w => (w, Returned a).
Definition raise {A} (e : Exn) : Py A := fun w => (w, Raised e).
Definition bind {A B} (m : Py A) (k : A -> Py B) : Py B :=
  fun w => match m w with
           | (w', Returned a) => k a w'
           | (w', Raised e) => (w', Raised e)
           end.

Declare Scope py_scope.
Delimit Scope py_scope with py.
Notation "x <- m ;; k" := (bind m (fun x => k))
  (at level 61, m at next level, right associativity) : py_scope.
Notation "m ;;; k" := (bind m (fun _ => k))
  (at level 61, right associativity) : py_scope.
Local Open Scope py_scope.

(** [try: body  except: handler] with a bare [except]: every exception of
    the body is caught; what the body did before raising stays done. *)
Definition try_except {A} (body handler : Py A) : Py A :=
  fun w => match body w with
           | (w', Returned a) => (w', Returned a)
           | (w', Raised _) => handler w'
           end.

(** A loop whose body updates one local variable. *)
Fixpoint for_fold {A S} (xs : list A) (body : S -> A -> Py S) (s : S) : Py S :=
  match xs with
  | [] => ret s
  | x :: xs' => s' <- body s x ;; for_fold xs' body s'
  end.

(** [range(n)] *)
Definition range (n : Z) : list nat := seq 0 (Z.to_nat n).

(** [l[i]] for [0 <= i] *)
Definition getitem {A} (l : list A) (i : nat) : Py A :=
  match nth_error l i with
  | Some a => ret a
  | None => raise (IndexError "list index out of range")
  end.

Definition print (s : string) : Py unit :=
  fun w => (mkWorld (rasters w) (stdout w ++ [s]) (figures w) (Greys_r_under w),
            Returned tt).

(* ------------------------------------------------------------------ *)
(** ** GDAL *)

Module Gdal.

(** [gdal.Open(path, gdal.GA_ReadOnly)] *)
Definition Open (path : string) : Py Dataset :=
  fun w =>
    match find (fun kv => String.eqb (fst kv) path) (rasters w) with
    | Some kv => (w, Returned (snd kv))
    | None => (w, Raised (GdalError "No such file or directory"))
    end.

(** [ds.GetRasterBand(k)]: bands are numbered from 1. *)
Definition GetRasterBand (ds : Dataset) (k : nat) : Py Band :=
  match k with
  | O => raise (GdalError "Illegal band #")
  | S j => match nth_error (bands ds) j with
           | Some b => ret b
           | None => raise (GdalError "Illegal band #")
           end
  end.

(** [raster.GetNoDataValue()] *)
Definition NoDataValue (raster : Band) : Py (option float) :=
  match GetNoDataValue raster with
  | NoDataIs v => ret v
  | NoDataRaises => raise (GdalError "no-data value not available")
  end.

End Gdal.

(** A Python [int] as an operand of float arithmetic.  The raster sizes it
    is applied to are C ints in GDAL, a range on which the conversion is
    exact. *)
Definition float_of_Z (z : Z) : float :=
  if (0 <=? z)%Z then PrimFloat.of_uint63 (Uint63.of_Z z)
  else PrimFloat.opp (PrimFloat.of_uint63 (Uint63.of_Z (- z))).

(* ------------------------------------------------------------------ *)
(** ** pyplot *)

Module Plt.

(** A figure is named by its position among the figures of the world,
    an axes by its figure and its position in the raveled axes array. *)
Definition FigRef := nat.
Definition AxesRef := (nat * nat)%type.

Fixpoint update_nth {A} (i : nat) (f : A -> A) (l : list A) : list A :=
  match l, i with
  | [], _ => []
  | x :: r, O => f x :: r
  | x :: r, S j => x :: update_nth j f r
  end.

Definition set_figures (fs : list Figure) (w : World) : World :=
  mkWorld (rasters w) (stdout w) fs (Greys_r_under w).

Definition modify_figure (fid : FigRef) (f : Figure -> Figure) : Py unit :=
  fun w => (set_figures (update_nth fid f (figures w)) w, Returned tt).

Definition set_axes (fg : Figure) (axs : list Axes) : Figure :=
  mkFigure (fig_nrows fg) (fig_ncols fg) (fig_wspace fg) axs.

Definition modify_axes (ax : AxesRef) (f : Axes -> Axes) : Py unit :=
  modify_figure (fst ax)
    (fun fg => set_axes fg (update_nth (snd ax) f (fig_axes fg))).

(** The figure that [plt.figure()] registers: no subplot grid, no axes. *)
Definition empty_figure : Figure := mkFigure 0 0 None [].

(** [plt.subplots(figsize=(12,9), ncols=ncols, nrows=nrows, ...)]
    followed by [np.array(axes).ravel()]: a new figure with
    [nrows*ncols] empty axes.  pyplot creates and registers the figure
    first and lays out the grid second, so a grid that is refused leaves
    the empty figure behind. *)
Definition subplots (ncols nrows : Z) : Py (FigRef * list AxesRef) :=
  fun w =>
    if (nrows <=? 0)%Z
    then (set_figures (figures w ++ [empty_figure]) w,
          Raised (ValueError "Number of rows must be a positive integer"))
    else if (ncols <=? 0)%Z
    then (set_figures (figures w ++ [empty_figure]) w,
          Raised (ValueError "Number of columns must be a positive integer"))
    else
      let n := Z.to_nat (nrows * ncols) in
      let fid := List.length (figures w) in
      (set_figures (figures w ++ [mkFigure nrows ncols None (repeat blank_axes n)]) w,
       Returned (fid, map (fun i => (fid, i)) (seq 0 n))).

(** [cmap.set_under(c)] on the shared [plt.cm.Greys_r] *)
Definition Greys_r_set_under (c : string) : Py unit :=
  fun w => (mkWorld (rasters w) (stdout w) (figures w) (Some c), Returned tt).

(** [fig.subplots_adjust(wspace=x)] *)
Definition set_wspace (x : float) (fg : Figure) : Figure :=
  mkFigure (fig_nrows fg) (fig_ncols fg) (Some x) (fig_axes fg).

Definition subplots_adjust_wspace (fid : FigRef) (x : float) : Py unit :=
  modify_figure fid (set_wspace x).

(** [ax.imshow(arr, cmap=, vmin=, vmax=, extent=)] on a real-valued
    masked array, which it accepts. *)
Definition imshow (ax : AxesRef) (arr : Np.MaskedArray) (cmap : Colormap)
           (vmin vmax : option Z) (extent : list float) : Py unit :=
  modify_axes ax
    (fun a => mkAxes (Some (mkImage arr cmap vmin vmax extent)) (ax_colorbar a)
                     (ax_title a) (ax_grid a) (ax_ylabel a) (ax_xlabel a)).

(** [cax = make_axes_locatable(ax).append_axes('right', size='5%', pad=0.25)]
    and [fig.colorbar(im, cax=cax, ...)] *)
Definition colorbar (ax : AxesRef) (style : ColorbarStyle) : Py unit :=
  modify_axes ax
    (fun a => mkAxes (ax_image a) (Some (mkColorbar "right" "5%" 0.25%float style))
                     (ax_title a) (ax_grid a) (ax_ylabel a) (ax_xlabel a)).

Definition set_title (ax : AxesRef) (t : string) : Py unit :=
  modify_axes ax
    (fun a => mkAxes (ax_image a) (ax_colorbar a) (Some t) (ax_grid a)
                     (ax_ylabel a) (ax_xlabel a)).

Definition grid (ax : AxesRef) (b : bool) : Py unit :=
  modify_axes ax
    (fun a => mkAxes (ax_image a) (ax_colorbar a) (ax_title a) (Some b)
                     (ax_ylabel a) (ax_xlabel a)).

Definition set_ylabel (ax : AxesRef) (t : string) : Py unit :=
  modify_axes ax
    (fun a => mkAxes (ax_image a) (ax_colorbar a) (ax_title a) (ax_grid a)
                     (Some t) (ax_xlabel a)).

Definition set_xlabel (ax : AxesRef) (t : string) : Py unit :=
  modify_axes ax
    (fun a => mkAxes (ax_image a) (ax_colorbar a) (ax_title a) (ax_grid a)
                     (ax_ylabel a) (Some t)).

End Plt.

(* ------------------------------------------------------------------ *)
(** ** [plot_layer] *)

Definition threshold : float := 1e20%float.

Definition note_no_nodata : string := "Could not find a no-data value...".
Definition msg_unsupported : string := "Number of bands currently unsupported".

(** The body of the loading loop: one band is read and masked. *)
Definition load_band (ds : Dataset) (lst_arrs : list Np.MaskedArray) (band : nat)
  : Py (list Np.MaskedArray) :=
  raster <- Gdal.GetRasterBand ds (band + 1) ;;
  let arr := ReadAsArray raster in
  arr <- try_except
           (NoData <- Gdal.NoDataValue raster ;;
            ret (Np.masked_where (Np.bor (Np.gt arr threshold) (Np.eq_scalar arr NoData)) arr))
           (print note_no_nodata ;;;
            ret (Np.masked_where (Np.gt arr threshold) arr)) ;;
  ret (lst_arrs ++ [arr]).

(** The local variables the layer-type rules assign. *)
Record Style := mkStyle {
  vmin : option Z;
  vmax : option Z;
  cmap_of : Colormap;
  title_of : list string
}.

(** The [if]/[elif] chain on [lay_type]; [cmap] and [title] come in with
    the values they have before it. *)
Definition layer_style (fig : Plt.FigRef) (lay_type : string)
           (cmap : Colormap) (title : list string) : Py Style :=
  if PyStr.endswith lay_type "amplitude" then
    ret (mkStyle None (Some 2000%Z) cmap title)
  else if PyStr.endswith lay_type "coherence" then
    ret (mkStyle (Some 0%Z) (Some 1%Z) cmap title)
  else if PyStr.endswith lay_type "incidenceAngle" then
    ret (mkStyle None None cmap title)
  else if PyStr.startswith lay_type "water" then
    ret (mkStyle (Some 0%Z) (Some 1%Z) (cmap_named "Greys") title)
  else if PyStr.startswith lay_type "defo" then
    ret (mkStyle None None cm_coolwarm title)
  else if PyStr.startswith lay_type "terr" || PyStr.startswith lay_type "topo" then
    ret (mkStyle None None cm_terrain title)
  else if String.eqb lay_type "ENU" then
    Plt.subplots_adjust_wspace fig 0.5%float ;;;
    ret (mkStyle None None cmap ["East"; "North"; "Up"])
  else
    ret (mkStyle None None cm_coolwarm title).

(** The body of the plotting loop, for subplot [i]. *)
Definition render_axes (lay_type : string) (lst_arrs : list Np.MaskedArray)
           (st : Style) (extent : list float) (i : nat) (ax : Plt.AxesRef) : Py unit :=
  arr <- getitem lst_arrs i ;;
  Plt.imshow ax arr (cmap_of st) (vmin st) (vmax st) extent ;;;
  (if String.eqb lay_type "ENU" then Plt.colorbar ax cb_format3
   else if PyStr.startswith lay_type "water" then Plt.colorbar ax (cb_ticks [vmin st; vmax st])
   else Plt.colorbar ax cb_plain) ;;;
  t <- getitem (title_of st) i ;;
  Plt.set_title ax t ;;;
  Plt.grid ax false.

(** [enumerate(axe)] *)
Definition enumerate {A} (l : list A) : list (nat * A) :=
  combine (seq 0 (List.length l)) l.

Definition compute_extent (ds : Dataset) : list float :=
  let trans := GetGeoTransform ds in
  [ t0 trans;
    (t0 trans + float_of_Z (RasterXSize ds) * t1 trans)%float;
    (t3 trans + float_of_Z (RasterYSize ds) * t5 trans)%float;
    t3 trans ].

(** [if not lay_type: lay_type = os.path.dirname(path_layer)] *)
Definition resolve_lay_type (lay_type : option string) (path_layer : string) : string :=
  if PyStr.falsy lay_type then OsPath.dirname path_layer
  else match lay_type with Some s => s | None => "" end.

(** [if not n_bands: n_bands = ds.RasterCount]: [None] and [0] are falsy. *)
Definition resolve_n_bands (n_bands : option Z) (ds : Dataset) : Z :=
  match n_bands with
  | None => RasterCount ds
  | Some n => if (n =? 0)%Z then RasterCount ds else n
  end.

Definition plot_layer (path_layer : string) (lay_type : option string)
           (cmap : option Colormap) (n_bands : option Z) : Py unit :=
  let lay_type := resolve_lay_type lay_type path_layer in
  let title := [OsPath.basename lay_type] in
  (* get the lon lat bounds *)
  ds <- Gdal.Open path_layer ;;
  let extent := compute_extent ds in
  (* loading the data *)
  let n_bands := resolve_n_bands n_bands ds in
  lst_arrs <- for_fold (range n_bands) (load_band ds) [] ;;
  nc <- (if (n_bands <? 4)%Z then ret (1%Z, n_bands)
         else raise (PyException msg_unsupported)) ;;
  let nrows := fst nc in
  let ncols := snd nc in
  (* initializing a figure *)
  fa <- Plt.subplots ncols nrows ;;
  let fig := fst fa in
  let axe := snd fa in
  let cmap := cm_Greys_r in
  Plt.Greys_r_set_under "black" ;;;
  (* plotting options for the layer types *)
  st <- layer_style fig lay_type cmap title ;;
  (* plotting the data *)
  for_fold (enumerate axe)
           (fun _ iax => render_axes lay_type lst_arrs st extent (fst iax) (snd iax)) tt ;;;
  a0 <- getitem axe 0 ;;
  Plt.set_ylabel a0 "latitude" ;;;
  am <- getitem axe (Z.to_nat (n_bands / 2)) ;;
  Plt.set_xlabel am "longitude".

(** A world with the given rasters, nothing printed and no figure. *)
Definition fresh (rs : list (string * Dataset)) : World := mkWorld rs [] [] None.

(* ------------------------------------------------------------------ *)
(** ** What the loops compute

    Closed forms of the results of the loading loop and the plotting loop;
    the lemmas below prove that [plot_layer] computes them. *)

(** What the loading loop makes of a band, and what it prints for it. *)
Definition masked_band (b : Band) : Np.MaskedArray :=
  let arr := ReadAsArray b in
  match GetNoDataValue b with
  | NoDataIs nd =>
      Np.masked_where (Np.bor (Np.gt arr threshold) (Np.eq_scalar arr nd)) arr
  | NoDataRaises => Np.masked_where (Np.gt arr threshold) arr
  end.

Definition band_notes (b : Band) : list string :=
  match GetNoDataValue b with
  | NoDataIs _ => []
  | NoDataRaises => [note_no_nodata]
  end.

(** The world after [notes] have been printed. *)
Definition printed (notes : list string) (w : World) : World :=
  mkWorld (rasters w) (stdout w ++ notes) (figures w) (Greys_r_under w).

(** The style that the layer-type rules give, read off [layer_style]. *)
Definition style_for (lay_type : string) (title : list string) : Style :=
  match layer_style 0 lay_type cm_Greys_r title (fresh []) with
  | (_, Returned st) => st
  | (_, Raised _) => mkStyle None None cm_Greys_r title
  end.

(** The keyword arguments of [fig.colorbar] chosen in the plotting loop. *)
Definition colorbar_style (lay_type : string) (st : Style) : ColorbarStyle :=
  if String.eqb lay_type "ENU" then cb_format3
  else if PyStr.startswith lay_type "water" then cb_ticks [vmin st; vmax st]
  else cb_plain.

(** A subplot after its turn of the plotting loop. *)
Definition drawn (lay_type : string) (st : Style) (extent : list float)
           (arr : Np.MaskedArray) (t : string) (a : Axes) : Axes :=
  mkAxes (Some (mkImage arr (cmap_of st) (vmin st) (vmax st) extent))
         (Some (mkColorbar "right" "5%" 0.25%float (colorbar_style lay_type st)))
         (Some t) (Some false) (ax_ylabel a) (ax_xlabel a).

Definition with_ylabel (t : string) (a : Axes) : Axes :=
  mkAxes (ax_image a) (ax_colorbar a) (ax_title a) (ax_grid a) (Some t) (ax_xlabel a).
Definition with_xlabel (t : string) (a : Axes) : Axes :=
  mkAxes (ax_image a) (ax_colorbar a) (ax_title a) (ax_grid a) (ax_ylabel a) (Some t).

(** A subplot that has its image and colorbar but not yet its title. *)
Definition painted (lay_type : string) (st : Style) (extent : list float)
           (arr : Np.MaskedArray) (a : Axes) : Axes :=
  mkAxes (Some (mkImage arr (cmap_of st) (vmin st) (vmax st) extent))
         (Some (mkColorbar "right" "5%" 0.25%float (colorbar_style lay_type st)))
         (ax_title a) (ax_grid a) (ax_ylabel a) (ax_xlabel a).

(** Bands [s], [s+1], ... of the dataset, [k] of them at most. *)
Definition bands_from (ds : Dataset) (s k : nat) : list Band :=
  firstn k (skipn s (bands ds)).

(** The axis labels: "latitude" on the first subplot, "longitude" on
    subplot [floor(n/2)]. *)
Definition labelled (n : Z) (i : nat) (a : Axes) : Axes :=
  let a := if (i =? 0)%nat then with_ylabel "latitude" a else a in
  if (i =? Z.to_nat (n / 2))%nat then with_xlabel "longitude" a else a.

(** The subplots of a call that went through, one per band of [bs]. *)
Definition final_axes (lay_type : string) (st : Style) (extent : list float)
           (n : Z) (bs : list Band) : list Axes :=
  map (fun ib =>
         labelled n (fst ib)
           (drawn lay_type st extent (masked_band (snd ib))
                  (nth (fst ib) (title_of st) "") blank_axes))
      (enumerate bs).

Definition final_figure (lay_type : string) (st : Style) (extent : list float)
           (n : Z) (bs : list Band) : Figure :=
  mkFigure 1 n (if String.eqb lay_type "ENU" then Some 0.5%float else None)
           (final_axes lay_type st extent n bs).

Definition notes_of (bs : list Band) : list string := List.concat (map band_notes bs).

(** The figure a call leaves when the second title is missing: the first
    subplot finished, the second with image and colorbar only, the third
    (if any) untouched. *)
Definition stalled_figure (lay_type : string) (st : Style) (extent : list float)
           (n : Z) (bs : list Band) : Figure :=
  mkFigure 1 n None
    (match bs with
     | b1 :: b2 :: rest =>
         drawn lay_type st extent (masked_band b1) (nth 0 (title_of st) "") blank_axes
         :: painted lay_type st extent (masked_band b2) blank_axes
         :: map (fun _ => blank_axes) rest
     | _ => []
     end).

(** How a call on a raster that opens ends, in terms of the resolved layer
    type, the resolved band count and the number of bands the raster has
    (proved of [plot_layer] in [plot_layer_outcome]). *)
Definition call_outcome (lay_type : string) (n count : Z) : Outcome unit :=
  if (count <? n)%Z then Raised (GdalError "Illegal band #")
  else if (4 <=? n)%Z then Raised (PyException msg_unsupported)
  else if (n <=? 0)%Z then Raised (ValueError "Number of columns must be a positive integer")
  else if String.eqb lay_type "ENU" || (n =? 1)%Z then Returned tt
  else Raised (IndexError "list index out of range").

(** The no-data value the lookup hands to the mask, if it hands one. *)
Definition sentinel_of (b : Band) : option float :=
  match GetNoDataValue b with
  | NoDataIs (Some s) => Some s
  | _ => None
  end.

(** [v == sentinel], the IEEE comparison NumPy makes. *)
Definition equals_sentinel (b : Band) (v : float) : bool :=
  match sentinel_of b with
  | Some s => PrimFloat.eqb v s
  | None => false
  end.

Definition is_masked (b : Band) (v : float) : bool :=
  PrimFloat.ltb threshold v || equals_sentinel b v.


(* ------------------------------------------------------------------ *)
(** ** Readings of the description that the code does not follow *)


(** Every call whose resolved band count is 4 or more ends in the
    unsupported-band-count error and leaves no figure. *)
Definition four_or_more_is_unsupported : Prop :=
  forall p lt c nb w ds,
    Gdal.Open p w = (w, Returned ds) ->
    (4 <= resolve_n_bands nb ds)%Z ->
    snd (plot_layer p lt c nb w) = Raised (PyException msg_unsupported) /\
    figures (fst (plot_layer p lt c nb w)) = figures w.

(** A call with layer type "ENU" and a band count other than 3 fails. *)
Definition ENU_needs_three_bands : Prop :=
  forall p lt c nb w ds,
    Gdal.Open p w = (w, Returned ds) ->
    resolve_lay_type lt p = "ENU" ->
    resolve_n_bands nb ds <> 3%Z ->
    exists e, snd (plot_layer p lt c nb w) = Raised e.


(** Every call with resolved band count 2 or 3 and a layer type other than
    "ENU" ends in the index error of the plotting loop. *)
Definition multiband_ends_in_index_error : Prop :=
  forall p lt c nb w ds,
    Gdal.Open p w = (w, Returned ds) ->
    (2 <= resolve_n_bands nb ds <= 3)%Z ->
    String.eqb (resolve_lay_type lt p) "ENU" = false ->
    snd (plot_layer p lt c nb w) = Raised (IndexError "list index out of range").

(** A band count of 0 makes the call render every band of the raster: it
    leaves a new figure in which each band has its image. *)
Definition zero_count_renders_all_bands : Prop :=
  forall p lt c w ds,
    Gdal.Open p w = (w, Returned ds) ->
    exists fg,
      figures (fst (plot_layer p lt c (Some 0%Z) w)) = figures w ++ [fg] /\
      forall i b,
        nth_error (bands ds) i = Some b ->
        exists ax im, nth_error (fig_axes fg) i = Some ax /\ ax_image ax = Some im.

(* ------------------------------------------------------------------ *)
(** ** Sample rasters *)

(** The geotransform [(-120.0, 0.01, 0, 35.0, 0, -0.01)]; [0.01] is written
    as the double nearest to it. *)
Definition la_transform : GeoTransform :=
  mkTrans (-120)%float 0x1.47ae147ae147bp-7%float 0%float
          35%float 0%float (-0x1.47ae147ae147bp-7)%float.

Definition tile (bs : list Band) : Dataset := mkDataset la_transform 100 100 bs.

(** One row of four pixels; [-9999] is the declared no-data value. *)
Definition band_a : Band :=
  mkBand [[1%float; (-9999)%float; 3e20%float; (-2e20)%float]]
         (NoDataIs (Some (-9999)%float)).

(** A band without a no-data value: the lookup returns [None]. *)
Definition band_b : Band :=
  mkBand [[(-2e20)%float; 2%float]] (NoDataIs None).

(** A band of a format that cannot answer the lookup. *)
Definition band_c : Band :=
  mkBand [[5%float; 2e20%float]] NoDataRaises.

Definition one_band : Dataset := tile [band_a].
Definition two_bands : Dataset := tile [band_a; band_c].
Definition three_bands : Dataset := tile [band_a; band_b; band_c].
Definition four_bands : Dataset := tile [band_a; band_b; band_c; band_a].

Definition disk : World :=
  fresh [ ("a/b/water/x.tif", one_band);
          ("topoHeight/dem.tif", one_band);
          ("products/coherence/pair.tif", two_bands);
          ("ENU/los.tif", three_bands);
          ("stack.tif", four_bands) ].

(* ------------------------------------------------------------------ *)
(** ** Counting *)

(** The number of bands whose no-data lookup raises. *)
Definition count_raising (bs : list Band) : nat :=
  List.length (filter (fun b => match GetNoDataValue b with
                                | NoDataRaises => true
                                | NoDataIs _ => false
                                end) bs).

(* ------------------------------------------------------------------ *)
(** ** Stepping through the monad *)

Lemma bind_returned {A B} (m : Py A) (k : A -> Py B) w w' a :
  m w = (w', Returned a) -> bind m k w = k a w'.
Proof. intros H. unfold bind. now rewrite H. Qed.

Lemma bind_raised {A B} (m : Py A) (k : A -> Py B) w w' e :
  m w = (w', Raised e) -> bind m k w = (w', Raised e).
Proof. intros H. unfold bind. now rewrite H. Qed.

Lemma printed_nil w : printed [] w = w.
Proof. destruct w. unfold printed. cbn. now rewrite app_nil_r. Qed.

Lemma printed_printed a b w : printed b (printed a w) = printed (a ++ b) w.
Proof. unfold printed. cbn. now rewrite app_assoc. Qed.

(* ------------------------------------------------------------------ *)
(** ** The loading loop *)

Lemma GetRasterBand_some ds i b w :
  nth_error (bands ds) i = Some b ->
  Gdal.GetRasterBand ds (i + 1) w = (w, Returned b).
Proof.
  intros H. rewrite Nat.add_1_r. unfold Gdal.GetRasterBand. now rewrite H.
Qed.

Lemma GetRasterBand_none ds i w :
  nth_error (bands ds) i = None ->
  Gdal.GetRasterBand ds (i + 1) w = (w, Raised (GdalError "Illegal band #")).
Proof.
  intros H. rewrite Nat.add_1_r. unfold Gdal.GetRasterBand. now rewrite H.
Qed.

Lemma load_band_some ds acc i b w :
  nth_error (bands ds) i = Some b ->
  load_band ds acc i w = (printed (band_notes b) w, Returned (acc ++ [masked_band b])).
Proof.
  intros H. unfold load_band.
  rewrite (bind_returned _ _ _ _ _ (GetRasterBand_some ds i b w H)).
  unfold masked_band, band_notes, try_except, bind, Gdal.NoDataValue.
  destruct (GetNoDataValue b) as [|nd]; cbn.
  - reflexivity.
  - now rewrite printed_nil.
Qed.

Lemma load_band_none ds acc i w :
  nth_error (bands ds) i = None ->
  load_band ds acc i w = (w, Raised (GdalError "Illegal band #")).
Proof.
  intros H. unfold load_band.
  now rewrite (bind_raised _ _ _ _ _ (GetRasterBand_none ds i w H)).
Qed.

Lemma bands_from_step ds s k b :
  nth_error (bands ds) s = Some b ->
  bands_from ds s (S k) = b :: bands_from ds (S s) k.
Proof.
  unfold bands_from. revert s. induction (bands ds) as [|x l IH]; intros [|s] H; cbn in *;
    try discriminate.
  - now inversion H.
  - apply (IH s H).
Qed.

Lemma load_loop_some ds : forall k s acc w,
  s + k <= List.length (bands ds) ->
  for_fold (seq s k) (load_band ds) acc w
  = (printed (List.concat (map band_notes (bands_from ds s k))) w,
     Returned (acc ++ map masked_band (bands_from ds s k))).
Proof.
  induction k as [|k IH]; intros s acc w Hle.
  - unfold bands_from. cbn. now rewrite printed_nil, app_nil_r.
  - destruct (nth_error (bands ds) s) as [b|] eqn:Hb.
    2:{ apply nth_error_None in Hb. lia. }
    cbn [seq for_fold].
    rewrite (bind_returned _ _ _ _ _ (load_band_some ds acc s b w Hb)).
    rewrite IH by lia.
    rewrite (bands_from_step ds s k b Hb). cbn [map List.concat].
    now rewrite printed_printed, <- app_assoc.
Qed.

Lemma load_loop_none ds : forall k s acc w,
  s <= List.length (bands ds) < s + k ->
  for_fold (seq s k) (load_band ds) acc w
  = (printed (List.concat (map band_notes (skipn s (bands ds)))) w,
     Raised (GdalError "Illegal band #")).
Proof.
  induction k as [|k IH]; intros s acc w Hle.
  - lia.
  - cbn [seq for_fold].
    destruct (nth_error (bands ds) s) as [b|] eqn:Hb.
    + assert (Hlt : s < List.length (bands ds)).
      { apply nth_error_Some. congruence. }
      rewrite (bind_returned _ _ _ _ _ (load_band_some ds acc s b w Hb)).
      rewrite IH by lia.
      rewrite printed_printed. repeat f_equal.
      pose proof (bands_from_step ds s (List.length (bands ds)) b Hb) as E.
      unfold bands_from in E. rewrite !firstn_all2 in E
        by (rewrite length_skipn; lia).
      now rewrite E.
    + rewrite (bind_raised _ _ _ _ _ (load_band_none ds acc s w Hb)).
      apply nth_error_None in Hb.
      rewrite skipn_all2 by lia. cbn. now rewrite printed_nil.
Qed.

(* ------------------------------------------------------------------ *)
(** ** Drawing on the newest figure *)

Lemma update_nth_last {A} (f : A -> A) (l : list A) (x : A) :
  Plt.update_nth (List.length l) f (l ++ [x]) = l ++ [f x].
Proof. induction l as [|y l IH]; cbn; [reflexivity | now rewrite IH]. Qed.

Lemma update_nth_twice {A} (f g : A -> A) : forall (l : list A) i,
  Plt.update_nth i f (Plt.update_nth i g l) = Plt.update_nth i (fun a => f (g a)) l.
Proof.
  induction l as [|y l IH]; intros [|i]; cbn; try reflexivity. now rewrite IH.
Qed.

Lemma modify_figure_last rs out fs fg u f :
  Plt.modify_figure (List.length fs) f (mkWorld rs out (fs ++ [fg]) u)
  = (mkWorld rs out (fs ++ [f fg]) u, Returned tt).
Proof.
  unfold Plt.modify_figure, Plt.set_figures. cbn. now rewrite update_nth_last.
Qed.

Lemma modify_axes_last rs out fs fg u i f :
  Plt.modify_axes (List.length fs, i) f (mkWorld rs out (fs ++ [fg]) u)
  = (mkWorld rs out (fs ++ [Plt.set_axes fg (Plt.update_nth i f (fig_axes fg))]) u,
     Returned tt).
Proof. unfold Plt.modify_axes. cbn [fst snd]. now rewrite modify_figure_last. Qed.

Lemma colorbar_call lay_type st ax :
  (if String.eqb lay_type "ENU" then Plt.colorbar ax cb_format3
   else if PyStr.startswith lay_type "water"
        then Plt.colorbar ax (cb_ticks [vmin st; vmax st])
        else Plt.colorbar ax cb_plain)
  = Plt.colorbar ax (colorbar_style lay_type st).
Proof.
  unfold colorbar_style.
  destruct (String.eqb lay_type "ENU"); [reflexivity|].
  now destruct (PyStr.startswith lay_type "water").
Qed.

Lemma render_axes_ok lay_type arrs st ext i rs out fs fg u arr t :
  nth_error arrs i = Some arr ->
  nth_error (title_of st) i = Some t ->
  render_axes lay_type arrs st ext i (List.length fs, i) (mkWorld rs out (fs ++ [fg]) u)
  = (mkWorld rs out
       (fs ++ [Plt.set_axes fg (Plt.update_nth i (drawn lay_type st ext arr t) (fig_axes fg))]) u,
     Returned tt).
Proof.
  intros Ha Ht. unfold render_axes, getitem. rewrite Ha, Ht, colorbar_call.
  unfold Plt.imshow, Plt.colorbar, Plt.set_title, Plt.grid, bind, ret.
  rewrite !modify_axes_last. cbn [Plt.set_axes fig_axes fig_nrows fig_ncols fig_wspace].
  rewrite !update_nth_twice. reflexivity.
Qed.

Lemma render_axes_untitled lay_type arrs st ext i rs out fs fg u arr :
  nth_error arrs i = Some arr ->
  nth_error (title_of st) i = None ->
  render_axes lay_type arrs st ext i (List.length fs, i) (mkWorld rs out (fs ++ [fg]) u)
  = (mkWorld rs out
       (fs ++ [Plt.set_axes fg (Plt.update_nth i (painted lay_type st ext arr) (fig_axes fg))]) u,
     Raised (IndexError "list index out of range")).
Proof.
  intros Ha Ht. unfold render_axes, getitem. rewrite Ha, Ht, colorbar_call.
  unfold Plt.imshow, Plt.colorbar, bind, ret, raise.
  rewrite !modify_axes_last. cbn [Plt.set_axes fig_axes fig_nrows fig_ncols fig_wspace].
  rewrite !update_nth_twice. reflexivity.
Qed.

(** The rules leave the world alone, except that "ENU" widens the spacing
    of the figure; the style does not depend on the figure or the world. *)
Lemma layer_style_ENU fig c t w :
  layer_style fig "ENU" c t w
  = (fst (Plt.subplots_adjust_wspace fig 0.5%float w),
     Returned (mkStyle None None c ["East"; "North"; "Up"])).
Proof. reflexivity. Qed.

Lemma layer_style_other fig lay_type t w :
  String.eqb lay_type "ENU" = false ->
  layer_style fig lay_type cm_Greys_r t w = (w, Returned (style_for lay_type t)).
Proof.
  intros H. unfold style_for, layer_style. rewrite H.
  repeat match goal with
         | |- context [if ?b then _ else _] => destruct b
         end; reflexivity.
Qed.

Lemma style_for_title lay_type t :
  String.eqb lay_type "ENU" = false -> title_of (style_for lay_type t) = t.
Proof.
  intros H. unfold style_for, layer_style. rewrite H.
  repeat match goal with
         | |- context [if ?b then _ else _] => destruct b
         end; reflexivity.
Qed.

(* ------------------------------------------------------------------ *)
(** ** The cases of a call *)

Lemma bands_from_all ds n :
  (n <= List.length (bands ds))%nat -> List.length (bands_from ds 0 n) = n.
Proof. intros H. unfold bands_from. cbn. rewrite length_firstn. lia. Qed.

Ltac py_run :=
  repeat first
    [ progress unfold bind, ret, raise, getitem
    | progress cbn [nth_error for_fold fst snd]
    | rewrite modify_axes_last
    | rewrite modify_figure_last
    | erewrite render_axes_ok
        by (rewrite ?style_for_title by assumption; reflexivity)
    | erewrite render_axes_untitled
        by (rewrite ?style_for_title by assumption; reflexivity) ].

(** From the band-count test to the new, empty figure. *)
Ltac py_new_figure :=
  unfold bind at 1; cbn [ret fst snd Z.ltb Z.compare Pos.compare Pos.compare_cont];
  unfold bind at 1; unfold Plt.subplots at 1;
  cbn [Z.leb Z.compare orb Z.mul Pos.mul Z.to_nat rasters stdout figures Greys_r_under];
  try change (Pos.to_nat 1) with 1%nat;
  try change (Pos.to_nat 2) with 2%nat;
  try change (Pos.to_nat 3) with 3%nat;
  try change (Z.to_nat (1 / 2)) with 0%nat;
  try change (Z.to_nat (2 / 2)) with 1%nat;
  try change (Z.to_nat (3 / 2)) with 1%nat;
  cbn [seq map List.length repeat combine fst snd];
  unfold bind at 1; unfold Plt.set_figures, Plt.Greys_r_set_under at 1;
  cbn [rasters stdout figures Greys_r_under].

Lemma plot_layer_returns p lt c nb w ds :
  Gdal.Open p w = (w, Returned ds) ->
  (1 <= resolve_n_bands nb ds <= 3)%Z ->
  (resolve_n_bands nb ds <= RasterCount ds)%Z ->
  (resolve_lay_type lt p = "ENU" \/ resolve_n_bands nb ds = 1%Z) ->
  plot_layer p lt c nb w =
   (mkWorld (rasters w)
      (stdout w ++ notes_of (bands_from ds 0 (Z.to_nat (resolve_n_bands nb ds))))
      (figures w ++ [final_figure (resolve_lay_type lt p)
                       (style_for (resolve_lay_type lt p) [OsPath.basename (resolve_lay_type lt p)])
                       (compute_extent ds) (resolve_n_bands nb ds)
                       (bands_from ds 0 (Z.to_nat (resolve_n_bands nb ds)))])
      (Some "black"), Returned tt).
Proof.
  intros Hopen Hn Hle Ht. unfold plot_layer.
  rewrite (bind_returned _ _ _ _ _ Hopen).
  set (l := resolve_lay_type lt p) in *.
  set (n := resolve_n_bands nb ds) in *.
  unfold RasterCount in Hle.
  unfold range.
  rewrite (bind_returned _ _ _ _ _ (load_loop_some ds (Z.to_nat n) 0 [] w ltac:(lia))).
  pose proof (bands_from_all ds (Z.to_nat n) ltac:(lia)) as Hlen.
  set (bs := bands_from ds 0 (Z.to_nat n)) in *.
  destruct w as [rs out fs u]. unfold printed. cbn [rasters stdout figures Greys_r_under app].
  fold (notes_of bs).
  assert (Hcases : n = 1%Z \/ n = 2%Z \/ n = 3%Z) by lia.
  clearbody n l bs. clear Hn Hle Hopen.
  assert (Hl : String.eqb l "ENU" = true /\ l = "ENU" \/ String.eqb l "ENU" = false /\ n = 1%Z).
  { destruct (String.eqb l "ENU") eqn:E.
    - left. split; [reflexivity|]. now apply String.eqb_eq.
    - right. split; [reflexivity|]. destruct Ht as [->|]; [discriminate E|assumption]. }
  clear Ht.
  unfold Plt.set_ylabel, Plt.set_xlabel.
  destruct Hl as [[E ->] | [E ->]].
  - destruct Hcases as [-> | [-> | ->]].
    + destruct bs as [|b1 [|? ?]]; try discriminate Hlen.
      py_new_figure.
      rewrite (bind_returned _ _ _ _ _ (layer_style_ENU _ _ _ _)).
      unfold Plt.subplots_adjust_wspace, enumerate.
      cbn [seq map List.length repeat combine fst snd].
      py_run. reflexivity.
    + destruct bs as [|b1 [|b2 [|? ?]]]; try discriminate Hlen.
      py_new_figure.
      rewrite (bind_returned _ _ _ _ _ (layer_style_ENU _ _ _ _)).
      unfold Plt.subplots_adjust_wspace, enumerate.
      cbn [seq map List.length repeat combine fst snd].
      py_run. reflexivity.
    + destruct bs as [|b1 [|b2 [|b3 [|? ?]]]]; try discriminate Hlen.
      py_new_figure.
      rewrite (bind_returned _ _ _ _ _ (layer_style_ENU _ _ _ _)).
      unfold Plt.subplots_adjust_wspace, enumerate.
      cbn [seq map List.length repeat combine fst snd].
      py_run. reflexivity.
  - destruct bs as [|b1 [|? ?]]; try discriminate Hlen.
    py_new_figure.
    rewrite (bind_returned _ _ _ _ _ (layer_style_other _ _ _ _ E)).
    unfold enumerate.
    cbn [seq map List.length repeat combine fst snd].
    unfold final_figure, final_axes, enumerate. rewrite E.
    cbn [seq map List.length repeat combine fst snd nth].
    rewrite (style_for_title _ _ E). cbn [nth].
    py_run. reflexivity.
Qed.

Lemma plot_layer_open_fails p lt c nb w w' e :
  Gdal.Open p w = (w', Raised e) ->
  plot_layer p lt c nb w = (w', Raised e).
Proof. intros H. unfold plot_layer. now rewrite (bind_raised _ _ _ _ _ H). Qed.

Lemma plot_layer_band_missing p lt c nb w ds :
  Gdal.Open p w = (w, Returned ds) ->
  (RasterCount ds < resolve_n_bands nb ds)%Z ->
  plot_layer p lt c nb w
  = (printed (notes_of (bands ds)) w, Raised (GdalError "Illegal band #")).
Proof.
  intros Hopen Hlt. unfold plot_layer.
  rewrite (bind_returned _ _ _ _ _ Hopen).
  unfold RasterCount in Hlt. unfold range.
  rewrite (bind_raised _ _ _ _ _
             (load_loop_none ds (Z.to_nat (resolve_n_bands nb ds)) 0 [] w ltac:(lia))).
  reflexivity.
Qed.

Lemma plot_layer_unsupported p lt c nb w ds :
  Gdal.Open p w = (w, Returned ds) ->
  (4 <= resolve_n_bands nb ds <= RasterCount ds)%Z ->
  plot_layer p lt c nb w
  = (printed (notes_of (bands_from ds 0 (Z.to_nat (resolve_n_bands nb ds)))) w,
     Raised (PyException msg_unsupported)).
Proof.
  intros Hopen Hn. unfold plot_layer.
  rewrite (bind_returned _ _ _ _ _ Hopen).
  unfold RasterCount in Hn. unfold range.
  rewrite (bind_returned _ _ _ _ _
             (load_loop_some ds (Z.to_nat (resolve_n_bands nb ds)) 0 [] w ltac:(lia))).
  destruct (resolve_n_bands nb ds <? 4)%Z eqn:E; [apply Z.ltb_lt in E; lia|].
  reflexivity.
Qed.

Lemma plot_layer_no_columns p lt c nb w ds :
  Gdal.Open p w = (w, Returned ds) ->
  (resolve_n_bands nb ds <= 0)%Z ->
  plot_layer p lt c nb w
  = (Plt.set_figures (figures w ++ [Plt.empty_figure]) w,
     Raised (ValueError "Number of columns must be a positive integer")).
Proof.
  intros Hopen Hn. unfold plot_layer.
  rewrite (bind_returned _ _ _ _ _ Hopen). unfold range.
  replace (Z.to_nat (resolve_n_bands nb ds)) with 0%nat by lia.
  cbn [seq for_fold]. unfold bind at 1. cbn [ret].
  destruct (resolve_n_bands nb ds <? 4)%Z eqn:E; [|apply Z.ltb_ge in E; lia].
  unfold bind at 1. cbn [ret fst snd]. unfold bind at 1, Plt.subplots at 1.
  destruct (resolve_n_bands nb ds <=? 0)%Z eqn:E2; [|apply Z.leb_gt in E2; lia].
  reflexivity.
Qed.

Lemma plot_layer_title_missing p lt c nb w ds :
  Gdal.Open p w = (w, Returned ds) ->
  (2 <= resolve_n_bands nb ds <= 3)%Z ->
  (resolve_n_bands nb ds <= RasterCount ds)%Z ->
  String.eqb (resolve_lay_type lt p) "ENU" = false ->
  plot_layer p lt c nb w =
   (mkWorld (rasters w)
      (stdout w ++ notes_of (bands_from ds 0 (Z.to_nat (resolve_n_bands nb ds))))
      (figures w ++ [stalled_figure (resolve_lay_type lt p)
                       (style_for (resolve_lay_type lt p) [OsPath.basename (resolve_lay_type lt p)])
                       (compute_extent ds) (resolve_n_bands nb ds)
                       (bands_from ds 0 (Z.to_nat (resolve_n_bands nb ds)))])
      (Some "black"), Raised (IndexError "list index out of range")).
Proof.
  intros Hopen Hn Hle E. unfold plot_layer.
  rewrite (bind_returned _ _ _ _ _ Hopen).
  set (l := resolve_lay_type lt p) in *.
  set (n := resolve_n_bands nb ds) in *.
  unfold RasterCount in Hle.
  unfold range.
  rewrite (bind_returned _ _ _ _ _ (load_loop_some ds (Z.to_nat n) 0 [] w ltac:(lia))).
  pose proof (bands_from_all ds (Z.to_nat n) ltac:(lia)) as Hlen.
  set (bs := bands_from ds 0 (Z.to_nat n)) in *.
  destruct w as [rs out fs u]. unfold printed. cbn [rasters stdout figures Greys_r_under app].
  fold (notes_of bs).
  assert (Hcases : n = 2%Z \/ n = 3%Z) by lia.
  clearbody n l bs. clear Hn Hle Hopen.
  unfold Plt.set_ylabel, Plt.set_xlabel, stalled_figure.
  rewrite (style_for_title _ _ E). cbn [nth].
  destruct Hcases as [-> | ->].
  - destruct bs as [|b1 [|b2 [|? ?]]]; try discriminate Hlen.
    py_new_figure.
    rewrite (bind_returned _ _ _ _ _ (layer_style_other _ _ _ _ E)).
    unfold enumerate. cbn [seq map List.length repeat combine fst snd].
    py_run. reflexivity.
  - destruct bs as [|b1 [|b2 [|b3 [|? ?]]]]; try discriminate Hlen.
    py_new_figure.
    rewrite (bind_returned _ _ _ _ _ (layer_style_other _ _ _ _ E)).
    unfold enumerate. cbn [seq map List.length repeat combine fst snd].
    py_run. reflexivity.
Qed.

(* ------------------------------------------------------------------ *)
(** ** Paths *)



Lemma drop_app d s : PyStr.drop (String.length d) (d ++ s) = s.
Proof.
  unfold PyStr.drop. induction d as [|a d IH]; cbn.
  - rewrite Nat.sub_0_r. induction s as [|b s IHs]; cbn; [reflexivity|].
    f_equal. destruct s; [reflexivity|]. exact IHs.
  - exact IH.
Qed.








(* ------------------------------------------------------------------ *)
(** ** Masks *)

Lemma combine_map_same {A B C} (f : A -> B) (g : A -> C) (l : list A) :
  combine (map f l) (map g l) = map (fun v => (f v, g v)) l.
Proof. induction l as [|x l IH]; cbn; [reflexivity | now rewrite IH]. Qed.

Lemma bor_elementwise (f g : float -> bool) (a : Np.ndarray float) :
  Np.bor (Np.elementwise f a) (Np.elementwise g a)
  = Np.elementwise (fun v => f v || g v) a.
Proof.
  unfold Np.bor, Np.elementwise. rewrite combine_map_same, map_map.
  apply map_ext. intros row. cbn [fst snd].
  now rewrite combine_map_same, map_map.
Qed.

Lemma at2_elementwise {A B} (f : A -> B) (a : Np.ndarray A) r c :
  Np.at2 (Np.elementwise f a) r c = option_map f (Np.at2 a r c).
Proof.
  unfold Np.at2, Np.elementwise. rewrite nth_error_map.
  destruct (nth_error a r) as [row|]; cbn; [|reflexivity].
  now rewrite nth_error_map.
Qed.


Lemma masked_band_mask b :
  Np.ma_mask (masked_band b) = Np.elementwise (is_masked b) (ReadAsArray b).
Proof.
  unfold masked_band, is_masked, equals_sentinel, sentinel_of, Np.gt, Np.eq_scalar.
  destruct (GetNoDataValue b) as [|[s|]]; cbn [Np.masked_where Np.ma_mask].
  - unfold Np.elementwise. apply map_ext. intros row. apply map_ext. intros v.
    now rewrite orb_false_r.
  - apply bor_elementwise.
  - apply bor_elementwise.
Qed.


(* ------------------------------------------------------------------ *)
(** ** How a call ends *)

Lemma plot_layer_outcome p lt c nb w ds :
  Gdal.Open p w = (w, Returned ds) ->
  snd (plot_layer p lt c nb w)
  = call_outcome (resolve_lay_type lt p) (resolve_n_bands nb ds) (RasterCount ds).
Proof.
  intros Hopen. unfold call_outcome.
  destruct (RasterCount ds <? resolve_n_bands nb ds)%Z eqn:E1.
  { apply Z.ltb_lt in E1. now rewrite (plot_layer_band_missing p lt c nb w ds Hopen E1). }
  apply Z.ltb_ge in E1.
  destruct (4 <=? resolve_n_bands nb ds)%Z eqn:E2.
  { apply Z.leb_le in E2.
    now rewrite (plot_layer_unsupported p lt c nb w ds Hopen (conj E2 E1)). }
  apply Z.leb_gt in E2.
  destruct (resolve_n_bands nb ds <=? 0)%Z eqn:E3.
  { apply Z.leb_le in E3. now rewrite (plot_layer_no_columns p lt c nb w ds Hopen E3). }
  apply Z.leb_gt in E3.
  destruct (String.eqb (resolve_lay_type lt p) "ENU") eqn:E4.
  { apply String.eqb_eq in E4.
    rewrite (plot_layer_returns p lt c nb w ds Hopen ltac:(lia) E1 (or_introl E4)).
    reflexivity. }
  destruct (resolve_n_bands nb ds =? 1)%Z eqn:E5.
  { apply Z.eqb_eq in E5.
    rewrite (plot_layer_returns p lt c nb w ds Hopen ltac:(lia) E1 (or_intror E5)).
    reflexivity. }
  apply Z.eqb_neq in E5.
  now rewrite (plot_layer_title_missing p lt c nb w ds Hopen ltac:(lia) E1 E4).
Qed.

(** A call that returns had one to three bands to draw, all of them in the
    raster, and a title for each. *)
Lemma plot_layer_returned_inv p lt c nb w ds w' :
  Gdal.Open p w = (w, Returned ds) ->
  plot_layer p lt c nb w = (w', Returned tt) ->
  (1 <= resolve_n_bands nb ds <= 3)%Z /\
  (resolve_n_bands nb ds <= RasterCount ds)%Z /\
  (resolve_lay_type lt p = "ENU" \/ resolve_n_bands nb ds = 1%Z).
Proof.
  intros Hopen Hrun.
  pose proof (plot_layer_outcome p lt c nb w ds Hopen) as H.
  rewrite Hrun in H. cbn [snd] in H. unfold call_outcome in H.
  destruct (RasterCount ds <? resolve_n_bands nb ds)%Z eqn:E1; [discriminate|].
  destruct (4 <=? resolve_n_bands nb ds)%Z eqn:E2; [discriminate|].
  destruct (resolve_n_bands nb ds <=? 0)%Z eqn:E3; [discriminate|].
  apply Z.ltb_ge in E1. apply Z.leb_gt in E2. apply Z.leb_gt in E3.
  repeat split; try lia.
  destruct (String.eqb (resolve_lay_type lt p) "ENU") eqn:E4.
  - left. now apply String.eqb_eq.
  - destruct (resolve_n_bands nb ds =? 1)%Z eqn:E5; [|discriminate].
    right. now apply Z.eqb_eq.
Qed.

Lemma final_axes_extent lay_type st ext n bs ax :
  In ax (final_axes lay_type st ext n bs) ->
  option_map im_extent (ax_image ax) = Some ext.
Proof.
  unfold final_axes. intros H. apply in_map_iff in H as [[i b] [<- _]].
  unfold labelled. cbn [fst snd].
  destruct (i =? 0)%nat; destruct (i =? Z.to_nat (n / 2))%nat; reflexivity.
Qed.

Lemma final_axes_cmap lay_type st ext n bs ax :
  In ax (final_axes lay_type st ext n bs) ->
  option_map im_cmap (ax_image ax) = Some (cmap_of st).
Proof.
  unfold final_axes. intros H. apply in_map_iff in H as [[i b] [<- _]].
  unfold labelled. cbn [fst snd].
  destruct (i =? 0)%nat; destruct (i =? Z.to_nat (n / 2))%nat; reflexivity.
Qed.

Lemma enumerate_nth {A} (l : list A) : forall s i a,
  nth_error l i = Some a ->
  nth_error (combine (seq s (List.length l)) l) i = Some (s + i, a).
Proof.
  induction l as [|x l IH]; intros s [|i] a H; cbn in *; try discriminate.
  - inversion H. now rewrite Nat.add_0_r.
  - rewrite (IH (S s) i a H). now rewrite Nat.add_succ_r.
Qed.

Lemma final_axes_nth lay_type st ext n bs i b :
  nth_error bs i = Some b ->
  nth_error (final_axes lay_type st ext n bs) i
  = Some (labelled n i (drawn lay_type st ext (masked_band b)
                              (nth i (title_of st) "") blank_axes)).
Proof.
  intros H. unfold final_axes, enumerate.
  now rewrite nth_error_map, (enumerate_nth bs 0 i b H).
Qed.

Lemma labelled_image n i a : ax_image (labelled n i a) = ax_image a.
Proof.
  unfold labelled.
  destruct (i =? 0)%nat; destruct (i =? Z.to_nat (n / 2))%nat; reflexivity.
Qed.



Lemma resolve_n_bands_count nb ds ds2 :
  RasterCount ds2 = RasterCount ds -> resolve_n_bands nb ds2 = resolve_n_bands nb ds.
Proof.
  intros H. unfold resolve_n_bands. destruct nb as [n|]; [|exact H].
  now destruct (n =? 0)%Z.
Qed.

(* ------------------------------------------------------------------ *)
(** ** The stated properties *)




(** C2, as stated, fails: asked for five bands of a four-band raster, the
    call ends in GDAL's band error, raised in the loading loop before the
    band-count test is reached. *)
Lemma C2_five_bands_of_four_is_a_band_error :
  resolve_n_bands (Some 5%Z) four_bands = 5%Z /\
  snd (plot_layer "stack.tif" None None (Some 5%Z) disk) = Raised (GdalError "Illegal band #") /\
  ~ four_or_more_is_unsupported.
Proof.
  split; [reflexivity|]. split; [reflexivity|].
  intros H.
  destruct (H "stack.tif" None None (Some 5%Z) disk four_bands eq_refl
              ltac:(vm_compute; discriminate)) as [E _].
  vm_compute in E. discriminate E.
Qed.

(** C2, amended: when the resolved band count is 4 or more and the raster
    has at least that many bands, the call raises the "Number of bands
    currently unsupported" exception to its caller and no figure is
    created. *)
Theorem C2_four_or_more_readable_bands_unsupported p lt c nb w ds :
  Gdal.Open p w = (w, Returned ds) ->
  (4 <= resolve_n_bands nb ds)%Z ->
  (resolve_n_bands nb ds <= RasterCount ds)%Z ->
  snd (plot_layer p lt c nb w) = Raised (PyException msg_unsupported) /\
  figures (fst (plot_layer p lt c nb w)) = figures w.
Proof.
  intros Hopen H4 Hle.
  rewrite (plot_layer_unsupported p lt c nb w ds Hopen (conj H4 Hle)).
  split; reflexivity.
Qed.

Lemma C2_unsupported_witness :
  snd (plot_layer "stack.tif" None None None disk) = Raised (PyException msg_unsupported) /\
  figures (fst (plot_layer "stack.tif" None None None disk)) = figures disk.
Proof.
  apply (C2_four_or_more_readable_bands_unsupported
           "stack.tif" None None None disk four_bands eq_refl);
    vm_compute; discriminate.
Defined.

(** C3 does not hold of the code: a two-band raster in a "coherence"
    directory resolves to band count 2, and the call raises an index error
    at the title of the second subplot instead of completing. *)
Theorem C3_two_band_coherence_call_raises :
  Gdal.Open "products/coherence/pair.tif" disk = (disk, Returned two_bands) /\
  resolve_n_bands None two_bands = 2%Z /\
  resolve_lay_type None "products/coherence/pair.tif" = "products/coherence" /\
  snd (plot_layer "products/coherence/pair.tif" None None None disk)
  = Raised (IndexError "list index out of range").
Proof. repeat split; reflexivity. Qed.

(** C4: the display extent is [x0, x0 + W*dx, y0 + H*dy, y0], computed from
    the geotransform and the raster size alone, and it is the extent of
    every image of a call that returns. *)
Theorem C4_extent_from_geotransform_and_size
        p lt c nb w w' x0 dx r1 y0 r2 dy W H bs :
  Gdal.Open p w = (w, Returned (mkDataset (mkTrans x0 dx r1 y0 r2 dy) W H bs)) ->
  plot_layer p lt c nb w = (w', Returned tt) ->
  compute_extent (mkDataset (mkTrans x0 dx r1 y0 r2 dy) W H bs)
  = [x0; (x0 + float_of_Z W * dx)%float; (y0 + float_of_Z H * dy)%float; y0] /\
  exists fg,
    figures w' = figures w ++ [fg] /\
    forall ax, In ax (fig_axes fg) ->
               option_map im_extent (ax_image ax)
               = Some [x0; (x0 + float_of_Z W * dx)%float;
                       (y0 + float_of_Z H * dy)%float; y0].
Proof.
  intros Hopen Hrun. split; [reflexivity|].
  destruct (plot_layer_returned_inv p lt c nb w _ w' Hopen Hrun) as (Hn & Hc & Ht).
  rewrite (plot_layer_returns p lt c nb w _ Hopen Hn Hc Ht) in Hrun.
  inversion Hrun as [Hw]. cbn [figures]. eexists. split; [reflexivity|].
  intros ax Hin. cbn [final_figure fig_axes] in Hin.
  apply (final_axes_extent _ _ _ _ _ _ Hin).
Qed.

Lemma C4_extent_witness :
  compute_extent one_band = [(-120)%float; (-119)%float; 34%float; 35%float] /\
  exists fg,
    figures (fst (plot_layer "topoHeight/dem.tif" (Some "topoHeight") None None disk))
    = figures disk ++ [fg] /\
    forall ax, In ax (fig_axes fg) ->
               option_map im_extent (ax_image ax)
               = Some [(-120)%float; (-119)%float; 34%float; 35%float].
Proof.
  exact (C4_extent_from_geotransform_and_size
           "topoHeight/dem.tif" (Some "topoHeight") None None disk
           (fst (plot_layer "topoHeight/dem.tif" (Some "topoHeight") None None disk))
           _ _ _ _ _ _ _ _ _ eq_refl eq_refl).
Defined.

(** C5, as stated, fails: with layer type "ENU" a one-band raster is
    plotted without error, its single subplot titled "East". *)
Lemma C5_ENU_with_one_band_returns :
  snd (plot_layer "topoHeight/dem.tif" (Some "ENU") None None disk) = Returned tt /\
  resolve_n_bands None one_band = 1%Z /\
  ~ ENU_needs_three_bands.
Proof.
  split; [reflexivity|]. split; [reflexivity|].
  intros H.
  destruct (H "topoHeight/dem.tif" (Some "ENU") None None disk one_band
              eq_refl eq_refl ltac:(vm_compute; discriminate)) as [e E].
  vm_compute in E. discriminate E.
Qed.

(** C5, amended: for a layer type exactly "ENU" the title list is exactly
    ["East", "North", "Up"], and a call with 1, 2 or 3 bands, all in the
    raster, returns with its subplots titled by the first 1, 2 or 3 of
    them in that order; the band count need not be 3. *)
Theorem C5_ENU_titles_in_order p lt c nb w ds :
  Gdal.Open p w = (w, Returned ds) ->
  resolve_lay_type lt p = "ENU" ->
  (1 <= resolve_n_bands nb ds <= 3)%Z ->
  (resolve_n_bands nb ds <= RasterCount ds)%Z ->
  (forall fig cm t w0,
      exists w1 st, layer_style fig "ENU" cm t w0 = (w1, Returned st) /\
                    title_of st = ["East"; "North"; "Up"]) /\
  exists w' fg,
    plot_layer p lt c nb w = (w', Returned tt) /\
    figures w' = figures w ++ [fg] /\
    map ax_title (fig_axes fg)
    = map Some (firstn (Z.to_nat (resolve_n_bands nb ds)) ["East"; "North"; "Up"]).
Proof.
  intros Hopen Hl Hn Hle. split.
  - intros fig cm t w0. eexists. eexists. split; [apply layer_style_ENU | reflexivity].
  - rewrite (plot_layer_returns p lt c nb w ds Hopen Hn Hle (or_introl Hl)).
    eexists. eexists. split; [reflexivity|]. cbn [figures]. split; [reflexivity|].
    rewrite Hl. unfold RasterCount in Hle.
    pose proof (bands_from_all ds (Z.to_nat (resolve_n_bands nb ds)) ltac:(lia)) as Hlen.
    assert (Hcases : resolve_n_bands nb ds = 1%Z \/ resolve_n_bands nb ds = 2%Z
                     \/ resolve_n_bands nb ds = 3%Z) by lia.
    destruct Hcases as [E | [E | E]]; rewrite E in *;
      destruct (bands_from ds 0 _) as [|b1 [|b2 [|b3 [|? ?]]]];
      try discriminate Hlen; reflexivity.
Qed.

Lemma C5_ENU_titles_witness :
  exists w' fg,
    plot_layer "ENU/los.tif" None None (Some 2%Z) disk = (w', Returned tt) /\
    figures w' = figures disk ++ [fg] /\
    map ax_title (fig_axes fg) = [Some "East"; Some "North"].
Proof.
  refine (proj2 (C5_ENU_titles_in_order "ENU/los.tif" None None (Some 2%Z) disk three_bands
                   eq_refl eq_refl _ _)); vm_compute; intuition discriminate.
Defined.




(** C7: when the no-data lookup of a band raises, reading that band does
    not fail: the band is masked by the threshold alone (values above
    1e20), the note is printed, and the call ends as it would for any
    raster with the same band arrays, whatever its no-data lookups do. *)
Theorem C7_nodata_lookup_failure_is_recovered p lt c nb w ds i b :
  Gdal.Open p w = (w, Returned ds) ->
  nth_error (bands ds) i = Some b ->
  GetNoDataValue b = NoDataRaises ->
  (forall acc w0,
      load_band ds acc i w0
      = (printed [note_no_nodata] w0,
         Returned (acc ++ [Np.masked_where (Np.gt (ReadAsArray b) threshold)
                                           (ReadAsArray b)]))) /\
  (forall w2 ds2,
      Gdal.Open p w2 = (w2, Returned ds2) ->
      map ReadAsArray (bands ds2) = map ReadAsArray (bands ds) ->
      snd (plot_layer p lt c nb w2) = snd (plot_layer p lt c nb w)).
Proof.
  intros Hopen Hb Hraise. split.
  - intros acc w0. rewrite (load_band_some ds acc i b w0 Hb).
    unfold band_notes, masked_band. now rewrite Hraise.
  - intros w2 ds2 Hopen2 Harr.
    assert (Hcount : RasterCount ds2 = RasterCount ds).
    { unfold RasterCount. f_equal.
      rewrite <- (length_map ReadAsArray (bands ds2)), Harr. apply length_map. }
    rewrite (plot_layer_outcome p lt c nb w2 ds2 Hopen2).
    rewrite (plot_layer_outcome p lt c nb w ds Hopen).
    now rewrite Hcount, (resolve_n_bands_count nb ds ds2 Hcount).
Qed.

Lemma C7_recovery_witness :
  load_band three_bands [] 2 disk
  = (printed [note_no_nodata] disk,
     Returned [Np.masked_where [[false; true]] [[5%float; 2e20%float]]]).
Proof.
  exact (proj1 (C7_nodata_lookup_failure_is_recovered
                  "ENU/los.tif" None None None disk three_bands 2 band_c
                  eq_refl eq_refl eq_refl) [] disk).
Defined.

(** C8, as stated, fails: asked for three bands of a two-band raster with
    a "coherence" layer type, the call ends in GDAL's band error in the
    loading loop; the plotting loop is never reached. *)
Lemma C8_three_bands_of_two_is_a_band_error :
  resolve_n_bands (Some 3%Z) two_bands = 3%Z /\
  plot_layer "products/coherence/pair.tif" (Some "coherence") None (Some 3%Z) disk
  = (printed [note_no_nodata] disk, Raised (GdalError "Illegal band #")) /\
  ~ multiband_ends_in_index_error.
Proof.
  split; [reflexivity|]. split; [reflexivity|].
  intros H.
  specialize (H "products/coherence/pair.tif" (Some "coherence") None (Some 3%Z)
                disk two_bands eq_refl ltac:(vm_compute; intuition discriminate) eq_refl).
  vm_compute in H. discriminate H.
Qed.

(** C8, amended: for a resolved band count of 2 or 3 and a resolved layer
    type other than "ENU", the title list has length 1; when the raster has
    all the requested bands the plotting loop raises an index error at the
    title of the second subplot, the first being titled; and in every case
    the call does not complete. *)
Theorem C8_multiband_non_ENU_call_never_completes p lt c nb w ds :
  Gdal.Open p w = (w, Returned ds) ->
  (2 <= resolve_n_bands nb ds <= 3)%Z ->
  String.eqb (resolve_lay_type lt p) "ENU" = false ->
  (forall fig w0,
      exists st,
        layer_style fig (resolve_lay_type lt p) cm_Greys_r
                    [OsPath.basename (resolve_lay_type lt p)] w0
        = (w0, Returned st) /\
        List.length (title_of st) = 1%nat) /\
  ((resolve_n_bands nb ds <= RasterCount ds)%Z ->
   exists w' fg a0 a1,
     plot_layer p lt c nb w = (w', Raised (IndexError "list index out of range")) /\
     figures w' = figures w ++ [fg] /\
     nth_error (fig_axes fg) 0 = Some a0 /\
     ax_title a0 = Some (OsPath.basename (resolve_lay_type lt p)) /\
     nth_error (fig_axes fg) 1 = Some a1 /\
     ax_title a1 = None) /\
  (exists e, snd (plot_layer p lt c nb w) = Raised e).
Proof.
  intros Hopen Hn E. split; [|split].
  - intros fig w0. eexists. split; [apply (layer_style_other _ _ _ _ E)|].
    now rewrite (style_for_title _ _ E).
  - intros Hle.
    rewrite (plot_layer_title_missing p lt c nb w ds Hopen Hn Hle E).
    unfold RasterCount in Hle.
    pose proof (bands_from_all ds (Z.to_nat (resolve_n_bands nb ds)) ltac:(lia)) as Hlen.
    unfold stalled_figure. rewrite (style_for_title _ _ E).
    destruct (bands_from ds 0 _) as [|b1 [|b2 rest]];
      [cbn in Hlen; lia | cbn in Hlen; lia |].
    do 4 eexists. cbn [figures fig_axes nth_error]. repeat split; reflexivity.
  - rewrite (plot_layer_outcome p lt c nb w ds Hopen). unfold call_outcome. rewrite E.
    destruct (RasterCount ds <? resolve_n_bands nb ds)%Z; [eexists; reflexivity|].
    destruct (4 <=? resolve_n_bands nb ds)%Z; [eexists; reflexivity|].
    destruct (resolve_n_bands nb ds <=? 0)%Z; [eexists; reflexivity|].
    destruct (resolve_n_bands nb ds =? 1)%Z eqn:E1; [apply Z.eqb_eq in E1; lia|].
    eexists; reflexivity.
Qed.

Lemma C8_never_completes_witness :
  exists e, snd (plot_layer "products/coherence/pair.tif" None None None disk) = Raised e.
Proof.
  refine (proj2 (proj2 (C8_multiband_non_ENU_call_never_completes
                          "products/coherence/pair.tif" None None None disk two_bands
                          eq_refl _ eq_refl))).
  vm_compute; intuition discriminate.
Defined.

(** C9: the [cmap] argument has no effect: two calls that differ only in
    it leave the same world and end the same way, because [cmap] is set to
    the grayscale default before the layer-type rules run; the colormap of
    every image of a call that returns is the one the rules give, starting
    from that default. *)
Theorem C9_cmap_argument_is_ignored p lt (c1 c2 : option Colormap) nb w :
  plot_layer p lt c1 nb w = plot_layer p lt c2 nb w /\
  (forall ds w',
      Gdal.Open p w = (w, Returned ds) ->
      plot_layer p lt c1 nb w = (w', Returned tt) ->
      exists fg,
        figures w' = figures w ++ [fg] /\
        forall ax, In ax (fig_axes fg) ->
                   option_map im_cmap (ax_image ax)
                   = Some (cmap_of (style_for (resolve_lay_type lt p)
                                      [OsPath.basename (resolve_lay_type lt p)]))).
Proof.
  split; [reflexivity|].
  intros ds w' Hopen Hrun.
  destruct (plot_layer_returned_inv p lt c1 nb w ds w' Hopen Hrun) as (Hn & Hc & Ht).
  rewrite (plot_layer_returns p lt c1 nb w ds Hopen Hn Hc Ht) in Hrun.
  inversion Hrun as [Hw]. cbn [figures]. eexists. split; [reflexivity|].
  intros ax Hin. cbn [final_figure fig_axes] in Hin.
  apply (final_axes_cmap _ _ _ _ _ _ Hin).
Qed.

(** C10, as stated, fails: with a band count of 0 on the four-band raster
    the count resolves to 4 and every band is read, but none is rendered:
    the call raises the unsupported-band-count error and creates no
    figure. *)
Lemma C10_zero_count_on_four_bands_renders_none :
  resolve_n_bands (Some 0%Z) four_bands = 4%Z /\
  plot_layer "stack.tif" None None (Some 0%Z) disk
  = (printed [note_no_nodata] disk, Raised (PyException msg_unsupported)) /\
  ~ zero_count_renders_all_bands.
Proof.
  split; [reflexivity|]. split; [reflexivity|].
  intros H.
  destruct (H "stack.tif" None None disk four_bands eq_refl) as (fg & Hf & _).
  vm_compute in Hf. discriminate Hf.
Qed.

(** C10, amended: a band count of 0 is treated as omitted: it resolves to
    the raster's band count, the loading loop then reads every band of the
    raster rather than none, and the call is the call without the
    argument; all bands are rendered when that call returns, one subplot
    per band of the raster, in order. *)
Theorem C10_zero_band_count_is_the_omitted_count p lt c w ds :
  Gdal.Open p w = (w, Returned ds) ->
  resolve_n_bands (Some 0%Z) ds = RasterCount ds /\
  for_fold (range (resolve_n_bands (Some 0%Z) ds)) (load_band ds) [] w
  = (printed (notes_of (bands ds)) w, Returned (map masked_band (bands ds))) /\
  plot_layer p lt c (Some 0%Z) w = plot_layer p lt c None w /\
  (forall w',
      plot_layer p lt c (Some 0%Z) w = (w', Returned tt) ->
      exists fg,
        figures w' = figures w ++ [fg] /\
        List.length (fig_axes fg) = List.length (bands ds) /\
        forall i b,
          nth_error (bands ds) i = Some b ->
          exists ax im,
            nth_error (fig_axes fg) i = Some ax /\
            ax_image ax = Some im /\
            im_data im = masked_band b).
Proof.
  intros Hopen. split; [reflexivity|]. split; [|split; [reflexivity|]].
  - cbn [resolve_n_bands Z.eqb]. unfold RasterCount, range.
    rewrite Nat2Z.id, (load_loop_some ds (List.length (bands ds)) 0 [] w (le_n _)).
    unfold bands_from, notes_of. cbn [skipn app]. now rewrite firstn_all.
  - intros w' Hrun.
    destruct (plot_layer_returned_inv p lt c (Some 0%Z) w ds w' Hopen Hrun) as (Hn & Hc & Ht).
    rewrite (plot_layer_returns p lt c (Some 0%Z) w ds Hopen Hn Hc Ht) in Hrun.
    assert (Hall : bands_from ds 0 (Z.to_nat (resolve_n_bands (Some 0%Z) ds)) = bands ds).
    { cbn [resolve_n_bands Z.eqb]. unfold RasterCount, bands_from.
      rewrite Nat2Z.id. cbn [skipn]. apply firstn_all. }
    rewrite Hall in Hrun.
    inversion Hrun as [Hw]. cbn [figures]. eexists. split; [reflexivity|].
    cbn [final_figure fig_axes]. split.
    + unfold final_axes, enumerate.
      now rewrite length_map, length_combine, length_seq, Nat.min_id.
    + intros i b Hb. rewrite (final_axes_nth _ _ _ _ _ i b Hb).
      eexists. eexists. split; [reflexivity|]. rewrite labelled_image.
      cbn [drawn ax_image]. split; reflexivity.
Qed.

Lemma C10_zero_count_witness :
  exists fg,
    figures (fst (plot_layer "ENU/los.tif" None None (Some 0%Z) disk))
    = figures disk ++ [fg] /\
    List.length (fig_axes fg) = 3%nat.
Proof.
  destruct (C10_zero_band_count_is_the_omitted_count
              "ENU/los.tif" None None disk three_bands eq_refl)
    as (_ & _ & _ & H).
  destruct (H (fst (plot_layer "ENU/los.tif" None None (Some 0%Z) disk)) eq_refl)
    as (fg & Hf & Hl & _).
  exists fg. split; [exact Hf | exact Hl].
Defined.

(* ------------------------------------------------------------------ *)
(** * Further properties of [plot_layer] *)


(* ------------------------------------------------------------------ *)
(** ** Suffixes and prefixes *)

Lemma length_append (a b : string) :
  String.length (a ++ b) = (String.length a + String.length b)%nat.
Proof. induction a as [|x a IH]; cbn; [reflexivity | now rewrite IH]. Qed.

Lemma take_drop n : forall s,
  (n <= String.length s)%nat ->
  s = (PyStr.take n s ++ PyStr.drop n s)%string.
Proof.
  unfold PyStr.take, PyStr.drop.
  induction n as [|n IH]; intros s Hn.
  - cbn. rewrite Nat.sub_0_r.
    assert (E : forall t, String.substring 0 (String.length t) t = t).
    { induction t as [|x t IHt]; cbn; [reflexivity | now rewrite IHt]. }
    rewrite E. now destruct s.
  - destruct s as [|x s]; cbn in Hn; [lia|]. cbn. f_equal. apply IH. lia.
Qed.

Lemma endswith_app pre p : PyStr.endswith (pre ++ p) p = true.
Proof.
  unfold PyStr.endswith. rewrite length_append.
  apply andb_true_intro. split; [apply Nat.leb_le; lia|].
  replace (String.length pre + String.length p - String.length p)%nat
    with (String.length pre) by lia.
  pose proof (drop_app pre p) as E. unfold PyStr.drop in E.
  rewrite length_append in E.
  replace (String.length pre + String.length p - String.length pre)%nat
    with (String.length p) in E by lia.
  rewrite E. apply String.eqb_refl.
Qed.

Lemma endswith_inv s p :
  PyStr.endswith s p = true -> exists pre, s = (pre ++ p)%string.
Proof.
  unfold PyStr.endswith. intros H. apply andb_prop in H as [Hl He].
  apply Nat.leb_le in Hl. apply String.eqb_eq in He.
  exists (PyStr.take (String.length s - String.length p) s).
  rewrite (take_drop (String.length s - String.length p) s) at 1 by lia.
  f_equal. unfold PyStr.drop.
  replace (String.length s - (String.length s - String.length p))%nat
    with (String.length p) by lia.
  exact He.
Qed.

Lemma append_eq_append : forall pre1 pre2 p q,
  (pre1 ++ p = pre2 ++ q)%string ->
  (String.length p <= String.length q)%nat ->
  exists l, q = (l ++ p)%string.
Proof.
  induction pre1 as [|a pre1 IH]; intros pre2 p q E Hl.
  - cbn in E. destruct pre2 as [|b pre2].
    + exists "". cbn in *. congruence.
    + exfalso. apply (f_equal String.length) in E. cbn in E.
      rewrite length_append in E. lia.
  - destruct pre2 as [|b pre2].
    + cbn in E. exists (String a pre1). now rewrite <- E.
    + cbn in E. injection E as _ E. apply (IH pre2 p q E Hl).
Qed.

(** Two suffixes of one string: the shorter is a suffix of the longer. *)
Lemma suffix_of_suffix s p q :
  PyStr.endswith s p = true -> PyStr.endswith s q = true ->
  (String.length p <= String.length q)%nat ->
  PyStr.endswith q p = true.
Proof.
  intros Hp Hq Hl.
  apply endswith_inv in Hp as [pre1 E1]. apply endswith_inv in Hq as [pre2 E2].
  rewrite E1 in E2. destruct (append_eq_append pre1 pre2 p q E2 Hl) as [l ->].
  apply endswith_app.
Qed.

(** Two prefixes of one string: the shorter is a prefix of the longer. *)
Lemma prefix_of_prefix : forall p q s,
  PyStr.startswith s p = true -> PyStr.startswith s q = true ->
  (String.length p <= String.length q)%nat ->
  PyStr.startswith q p = true.
Proof.
  unfold PyStr.startswith.
  induction p as [|a p IH]; intros q s Hp Hq Hl; [now destruct q|].
  destruct q as [|b q]; [cbn in Hl; lia|].
  destruct s as [|x s]; [discriminate Hp|].
  cbn in *. destruct (ascii_dec a x) as [->|]; [|discriminate Hp].
  destruct (ascii_dec b x) as [->|]; [|discriminate Hq].
  destruct (ascii_dec x x) as [_|N]; [|now elim N].
  apply (IH q s Hp Hq). lia.
Qed.

(* ------------------------------------------------------------------ *)
(** ** The layer-type rules *)

Lemma endswith_exclusive s p q :
  (String.length p <= String.length q)%nat ->
  PyStr.endswith q p = false ->
  PyStr.endswith s p = true -> PyStr.endswith s q = false.
Proof.
  intros Hl Hn Hp. destruct (PyStr.endswith s q) eqn:Hq; [|reflexivity].
  rewrite (suffix_of_suffix s p q Hp Hq Hl) in Hn. discriminate Hn.
Qed.

Lemma endswith_exclusive_rev s p q :
  (String.length p <= String.length q)%nat ->
  PyStr.endswith q p = false ->
  PyStr.endswith s q = true -> PyStr.endswith s p = false.
Proof.
  intros Hl Hn Hq. destruct (PyStr.endswith s p) eqn:Hp; [|reflexivity].
  rewrite (suffix_of_suffix s p q Hp Hq Hl) in Hn. discriminate Hn.
Qed.

Lemma startswith_exclusive s p q :
  (String.length p <= String.length q)%nat ->
  PyStr.startswith q p = false ->
  PyStr.startswith s p = true -> PyStr.startswith s q = false.
Proof.
  intros Hl Hn Hp. destruct (PyStr.startswith s q) eqn:Hq; [|reflexivity].
  rewrite (prefix_of_prefix p q s Hp Hq Hl) in Hn. discriminate Hn.
Qed.

Lemma startswith_exclusive_rev s p q :
  (String.length p <= String.length q)%nat ->
  PyStr.startswith q p = false ->
  PyStr.startswith s q = true -> PyStr.startswith s p = false.
Proof.
  intros Hl Hn Hq. destruct (PyStr.startswith s p) eqn:Hp; [|reflexivity].
  rewrite (prefix_of_prefix p q s Hp Hq Hl) in Hn. discriminate Hn.
Qed.

(** Closes a goal [test lt x = false] from a hypothesis [test lt y = true]
    on another suffix or prefix. *)
Ltac other_rule :=
  first
    [ eapply endswith_exclusive; [| |eassumption]; [cbn; lia | reflexivity]
    | eapply endswith_exclusive_rev; [| |eassumption]; [cbn; lia | reflexivity]
    | eapply startswith_exclusive; [| |eassumption]; [cbn; lia | reflexivity]
    | eapply startswith_exclusive_rev; [| |eassumption]; [cbn; lia | reflexivity] ].

(** X1: no two suffix rules match one layer type, no two prefix rules do,
    and "ENU" matches none of them; only the order of suffix rules before
    prefix rules can decide a style. *)
Theorem X1_layer_rules_do_not_overlap lay_type :
  (PyStr.endswith lay_type "amplitude" = true ->
   PyStr.endswith lay_type "coherence" = false /\
   PyStr.endswith lay_type "incidenceAngle" = false) /\
  (PyStr.endswith lay_type "coherence" = true ->
   PyStr.endswith lay_type "incidenceAngle" = false) /\
  (PyStr.startswith lay_type "water" = true ->
   PyStr.startswith lay_type "defo" = false /\
   PyStr.startswith lay_type "terr" = false /\
   PyStr.startswith lay_type "topo" = false) /\
  (PyStr.startswith lay_type "defo" = true ->
   PyStr.startswith lay_type "terr" = false /\
   PyStr.startswith lay_type "topo" = false) /\
  (PyStr.startswith lay_type "terr" = true ->
   PyStr.startswith lay_type "topo" = false) /\
  (String.eqb lay_type "ENU" = true ->
   PyStr.endswith lay_type "amplitude" = false /\
   PyStr.endswith lay_type "coherence" = false /\
   PyStr.endswith lay_type "incidenceAngle" = false /\
   PyStr.startswith lay_type "water" = false /\
   PyStr.startswith lay_type "defo" = false /\
   PyStr.startswith lay_type "terr" = false /\
   PyStr.startswith lay_type "topo" = false).
Proof.
  repeat match goal with
         | |- _ /\ _ => split
         | |- _ -> _ => intro
         end;
    try other_rule;
    match goal with
    | H : String.eqb _ _ = true |- _ =>
        apply String.eqb_eq in H; subst lay_type; reflexivity
    end.
Qed.

Lemma style_for_is fig lay_type t w st :
  String.eqb lay_type "ENU" = false ->
  layer_style fig lay_type cm_Greys_r t w = (w, Returned st) ->
  style_for lay_type t = st.
Proof.
  intros E H. rewrite (layer_style_other fig lay_type t w E) in H. congruence.
Qed.

Lemma not_ENU_by_suffix lay_type x :
  PyStr.endswith "ENU" x = false ->
  PyStr.endswith lay_type x = true -> String.eqb lay_type "ENU" = false.
Proof.
  intros Hx H. destruct (String.eqb lay_type "ENU") eqn:E; [|reflexivity].
  apply String.eqb_eq in E. subst. congruence.
Qed.

Lemma not_ENU_by_prefix lay_type x :
  PyStr.startswith "ENU" x = false ->
  PyStr.startswith lay_type x = true -> String.eqb lay_type "ENU" = false.
Proof.
  intros Hx H. destruct (String.eqb lay_type "ENU") eqn:E; [|reflexivity].
  apply String.eqb_eq in E. subst. congruence.
Qed.

(** A one-band call with a layer type other than "ENU", in full. *)
Lemma single_band_call p lt c nb w ds :
  Gdal.Open p w = (w, Returned ds) ->
  resolve_n_bands nb ds = 1%Z ->
  (1 <= RasterCount ds)%Z ->
  String.eqb (resolve_lay_type lt p) "ENU" = false ->
  exists b1,
    nth_error (bands ds) 0 = Some b1 /\
    plot_layer p lt c nb w
    = (mkWorld (rasters w) (stdout w ++ band_notes b1)
         (figures w ++
          [mkFigure 1 1 None
             [with_xlabel "longitude"
                (with_ylabel "latitude"
                   (drawn (resolve_lay_type lt p)
                          (style_for (resolve_lay_type lt p)
                                     [OsPath.basename (resolve_lay_type lt p)])
                          (compute_extent ds) (masked_band b1)
                          (OsPath.basename (resolve_lay_type lt p)) blank_axes))]])
         (Some "black"),
       Returned tt).
Proof.
  intros Hopen H1 Hc E.
  rewrite (plot_layer_returns p lt c nb w ds Hopen ltac:(lia) ltac:(lia) (or_intror H1)).
  rewrite H1. unfold RasterCount in Hc. unfold bands_from.
  change (Z.to_nat 1) with 1%nat. cbn [skipn].
  destruct (bands ds) as [|b1 rest]; [cbn in Hc; lia|].
  exists b1. split; [reflexivity|].
  unfold final_figure, final_axes, notes_of. rewrite E.
  cbn [firstn enumerate List.length seq combine map fst snd List.concat].
  rewrite (style_for_title _ _ E). cbn [nth app]. now rewrite ?app_nil_r.
Qed.

Lemma suffix_rules fig lay_type t w :
  (PyStr.endswith lay_type "amplitude" = true ->
   layer_style fig lay_type cm_Greys_r t w
   = (w, Returned (mkStyle None (Some 2000%Z) cm_Greys_r t))) /\
  (PyStr.endswith lay_type "coherence" = true ->
   layer_style fig lay_type cm_Greys_r t w
   = (w, Returned (mkStyle (Some 0%Z) (Some 1%Z) cm_Greys_r t))) /\
  (PyStr.endswith lay_type "incidenceAngle" = true ->
   layer_style fig lay_type cm_Greys_r t w
   = (w, Returned (mkStyle None None cm_Greys_r t))).
Proof.
  split; [|split]; intros H; unfold layer_style.
  - now rewrite H.
  - assert (Ea : PyStr.endswith lay_type "amplitude" = false) by other_rule.
    now rewrite Ea, H.
  - assert (Ea : PyStr.endswith lay_type "amplitude" = false) by other_rule.
    assert (Ec : PyStr.endswith lay_type "coherence" = false) by other_rule.
    now rewrite Ea, Ec, H.
Qed.

(** X2: the three suffix rules are tried first, so they decide the style
    whatever the layer type starts with: "amplitude" gives an upper bound
    of 2000, "coherence" the bounds [0, 1], "incidenceAngle" no bounds, all
    three in [Greys_r]. *)
Theorem X2_suffix_rules_decide_first fig lay_type t w :
  (PyStr.endswith lay_type "amplitude" = true ->
   layer_style fig lay_type cm_Greys_r t w
   = (w, Returned (mkStyle None (Some 2000%Z) cm_Greys_r t))) /\
  (PyStr.endswith lay_type "coherence" = true ->
   layer_style fig lay_type cm_Greys_r t w
   = (w, Returned (mkStyle (Some 0%Z) (Some 1%Z) cm_Greys_r t))) /\
  (PyStr.endswith lay_type "incidenceAngle" = true ->
   layer_style fig lay_type cm_Greys_r t w
   = (w, Returned (mkStyle None None cm_Greys_r t))).
Proof.
  split; [|split]; intros H; unfold layer_style.
  - now rewrite H.
  - assert (Ea : PyStr.endswith lay_type "amplitude" = false) by other_rule.
    now rewrite Ea, H.
  - assert (Ea : PyStr.endswith lay_type "amplitude" = false) by other_rule.
    assert (Ec : PyStr.endswith lay_type "coherence" = false) by other_rule.
    now rewrite Ea, Ec, H.
Qed.

(** X3: a one-band call whose layer type ends in "coherence" returns with
    its image drawn between exactly 0 and 1 in [Greys_r], whatever the
    data. *)
Theorem X3_coherence_is_drawn_between_0_and_1 p lt c nb w ds :
  Gdal.Open p w = (w, Returned ds) ->
  resolve_n_bands nb ds = 1%Z ->
  (1 <= RasterCount ds)%Z ->
  PyStr.endswith (resolve_lay_type lt p) "coherence" = true ->
  exists w' ax im,
    plot_layer p lt c nb w = (w', Returned tt) /\
    figures w' = figures w ++ [mkFigure 1 1 None [ax]] /\
    ax_image ax = Some im /\
    im_vmin im = Some 0%Z /\ im_vmax im = Some 1%Z /\ im_cmap im = cm_Greys_r.
Proof.
  intros Hopen H1 Hc Hs.
  assert (E : String.eqb (resolve_lay_type lt p) "ENU" = false)
    by (apply (not_ENU_by_suffix _ "coherence"); [reflexivity | exact Hs]).
  destruct (single_band_call p lt c nb w ds Hopen H1 Hc E) as (b1 & _ & Hrun).
  rewrite Hrun.
  rewrite (style_for_is 0 _ _ (fresh []) _ E
             (proj1 (proj2 (suffix_rules 0 _ _ (fresh []))) Hs)).
  do 3 eexists. cbn [figures]. repeat split; reflexivity.
Qed.

Lemma X3_coherence_witness :
  exists w' ax im,
    plot_layer "products/coherence/pair.tif" None None (Some 1%Z) disk = (w', Returned tt) /\
    figures w' = figures disk ++ [mkFigure 1 1 None [ax]] /\
    ax_image ax = Some im /\
    im_vmin im = Some 0%Z /\ im_vmax im = Some 1%Z /\ im_cmap im = cm_Greys_r.
Proof.
  refine (X3_coherence_is_drawn_between_0_and_1
            "products/coherence/pair.tif" None None (Some 1%Z) disk two_bands
            eq_refl eq_refl _ eq_refl).
  vm_compute; discriminate.
Defined.

Lemma prefix_rules fig lay_type t w :
  PyStr.endswith lay_type "amplitude" = false ->
  PyStr.endswith lay_type "coherence" = false ->
  PyStr.endswith lay_type "incidenceAngle" = false ->
  (PyStr.startswith lay_type "water" = true ->
   layer_style fig lay_type cm_Greys_r t w
   = (w, Returned (mkStyle (Some 0%Z) (Some 1%Z) (cmap_named "Greys") t))) /\
  (PyStr.startswith lay_type "defo" = true ->
   layer_style fig lay_type cm_Greys_r t w
   = (w, Returned (mkStyle None None cm_coolwarm t))) /\
  (PyStr.startswith lay_type "terr" = true \/ PyStr.startswith lay_type "topo" = true ->
   layer_style fig lay_type cm_Greys_r t w
   = (w, Returned (mkStyle None None cm_terrain t))) /\
  (PyStr.startswith lay_type "water" = false ->
   PyStr.startswith lay_type "defo" = false ->
   PyStr.startswith lay_type "terr" = false ->
   PyStr.startswith lay_type "topo" = false ->
   String.eqb lay_type "ENU" = false ->
   layer_style fig lay_type cm_Greys_r t w
   = (w, Returned (mkStyle None None cm_coolwarm t))).
Proof.
  intros Ea Ec Ei. unfold layer_style. rewrite Ea, Ec, Ei.
  split; [|split; [|split]].
  - intros H. now rewrite H.
  - intros H.
    assert (Ew : PyStr.startswith lay_type "water" = false) by other_rule.
    now rewrite Ew, H.
  - intros H.
    assert (Ew : PyStr.startswith lay_type "water" = false)
      by (destruct H; other_rule).
    assert (Ed : PyStr.startswith lay_type "defo" = false)
      by (destruct H; other_rule).
    rewrite Ew, Ed. destruct H as [H|H]; rewrite H; [reflexivity|].
    now rewrite orb_true_r.
  - intros Hw Hd Hr Ho E. now rewrite Hw, Hd, Hr, Ho, E.
Qed.

(** X4: when no suffix rule matches, a layer type starting with "water"
    gets the bounds [0, 1] and the 'Greys' colormap, one starting with
    "defo" the coolwarm colormap, one starting with "terr" or "topo" the
    terrain colormap, both without bounds; a layer type that matches no
    rule at all gets coolwarm without bounds. *)
Theorem X4_prefix_rules_and_default fig lay_type t w :
  PyStr.endswith lay_type "amplitude" = false ->
  PyStr.endswith lay_type "coherence" = false ->
  PyStr.endswith lay_type "incidenceAngle" = false ->
  (PyStr.startswith lay_type "water" = true ->
   layer_style fig lay_type cm_Greys_r t w
   = (w, Returned (mkStyle (Some 0%Z) (Some 1%Z) (cmap_named "Greys") t))) /\
  (PyStr.startswith lay_type "defo" = true ->
   layer_style fig lay_type cm_Greys_r t w
   = (w, Returned (mkStyle None None cm_coolwarm t))) /\
  (PyStr.startswith lay_type "terr" = true \/ PyStr.startswith lay_type "topo" = true ->
   layer_style fig lay_type cm_Greys_r t w
   = (w, Returned (mkStyle None None cm_terrain t))) /\
  (PyStr.startswith lay_type "water" = false ->
   PyStr.startswith lay_type "defo" = false ->
   PyStr.startswith lay_type "terr" = false ->
   PyStr.startswith lay_type "topo" = false ->
   String.eqb lay_type "ENU" = false ->
   layer_style fig lay_type cm_Greys_r t w
   = (w, Returned (mkStyle None None cm_coolwarm t))).
Proof.
  intros Ea Ec Ei. unfold layer_style. rewrite Ea, Ec, Ei.
  split; [|split; [|split]].
  - intros H. now rewrite H.
  - intros H.
    assert (Ew : PyStr.startswith lay_type "water" = false) by other_rule.
    now rewrite Ew, H.
  - intros H.
    assert (Ew : PyStr.startswith lay_type "water" = false)
      by (destruct H; other_rule).
    assert (Ed : PyStr.startswith lay_type "defo" = false)
      by (destruct H; other_rule).
    rewrite Ew, Ed. destruct H as [H|H]; rewrite H; [reflexivity|].
    now rewrite orb_true_r.
  - intros Hw Hd Hr Ho E. now rewrite Hw, Hd, Hr, Ho, E.
Qed.

Lemma X4_prefix_rules_witness :
  layer_style 0 "topoHeight" cm_Greys_r ["topoHeight"] disk
  = (disk, Returned (mkStyle None None cm_terrain ["topoHeight"])).
Proof.
  exact (proj1 (proj2 (proj2 (X4_prefix_rules_and_default
                                0 "topoHeight" ["topoHeight"] disk
                                eq_refl eq_refl eq_refl)))
               (or_intror eq_refl)).
Defined.

(** X5: in a one-band call whose layer type starts with "water" the
    colorbar ticks are the two colour bounds: [0, 1] unless the type ends
    in "amplitude", where they are [None, 2000], or in "incidenceAngle",
    where they are [None, None]. *)
Theorem X5_water_colorbar_ticks_are_the_bounds p lt c nb w ds :
  Gdal.Open p w = (w, Returned ds) ->
  resolve_n_bands nb ds = 1%Z ->
  (1 <= RasterCount ds)%Z ->
  PyStr.startswith (resolve_lay_type lt p) "water" = true ->
  exists w' ax im cb,
    plot_layer p lt c nb w = (w', Returned tt) /\
    figures w' = figures w ++ [mkFigure 1 1 None [ax]] /\
    ax_image ax = Some im /\
    ax_colorbar ax = Some cb /\
    cb_style cb = cb_ticks [im_vmin im; im_vmax im] /\
    (PyStr.endswith (resolve_lay_type lt p) "amplitude" = true ->
     cb_style cb = cb_ticks [None; Some 2000%Z]) /\
    (PyStr.endswith (resolve_lay_type lt p) "incidenceAngle" = true ->
     cb_style cb = cb_ticks [None; None]) /\
    (PyStr.endswith (resolve_lay_type lt p) "amplitude" = false ->
     PyStr.endswith (resolve_lay_type lt p) "incidenceAngle" = false ->
     cb_style cb = cb_ticks [Some 0%Z; Some 1%Z]).
Proof.
  intros Hopen H1 Hc Hw.
  assert (E : String.eqb (resolve_lay_type lt p) "ENU" = false)
    by (apply (not_ENU_by_prefix _ "water"); [reflexivity | exact Hw]).
  destruct (single_band_call p lt c nb w ds Hopen H1 Hc E) as (b1 & _ & Hrun).
  rewrite Hrun. do 4 eexists. cbn [figures].
  split; [reflexivity|]. split; [reflexivity|].
  cbn [with_xlabel with_ylabel drawn ax_image ax_colorbar].
  split; [reflexivity|]. split; [reflexivity|].
  cbn [cb_style im_vmin im_vmax]. unfold colorbar_style. rewrite E, Hw.
  split; [reflexivity|].
  set (l := resolve_lay_type lt p) in *.
  set (t := [OsPath.basename l]).
  split; [|split].
  - intros Ha.
    now rewrite (style_for_is 0 l t (fresh []) _ E (proj1 (suffix_rules 0 l t (fresh [])) Ha)).
  - intros Hi.
    now rewrite (style_for_is 0 l t (fresh []) _ E
                   (proj2 (proj2 (suffix_rules 0 l t (fresh []))) Hi)).
  - intros Ha Hi. destruct (PyStr.endswith l "coherence") eqn:Hco.
    + now rewrite (style_for_is 0 l t (fresh []) _ E
                     (proj1 (proj2 (suffix_rules 0 l t (fresh []))) Hco)).
    + now rewrite (style_for_is 0 l t (fresh []) _ E
                     (proj1 (prefix_rules 0 l t (fresh []) Ha Hco Hi) Hw)).
Qed.

Lemma X5_water_ticks_witness :
  exists w' ax im cb,
    plot_layer "a/b/water/x.tif" (Some "waterMask") None None disk = (w', Returned tt) /\
    figures w' = figures disk ++ [mkFigure 1 1 None [ax]] /\
    ax_image ax = Some im /\
    ax_colorbar ax = Some cb /\
    cb_style cb = cb_ticks [Some 0%Z; Some 1%Z].
Proof.
  destruct (X5_water_colorbar_ticks_are_the_bounds
              "a/b/water/x.tif" (Some "waterMask") None None disk one_band
              eq_refl eq_refl ltac:(vm_compute; discriminate) eq_refl)
    as (w' & ax & im & cb & H1 & H2 & H3 & H4 & _ & _ & _ & H5).
  exists w', ax, im, cb. repeat split; try assumption.
  apply H5; reflexivity.
Defined.

(* ------------------------------------------------------------------ *)
(** ** Every way a call can go *)

Lemma find_none_of {A} (f : A -> bool) (l : list A) :
  (forall x, In x l -> f x = false) -> find f l = None.
Proof.
  induction l as [|x l IH]; intros H; cbn; [reflexivity|].
  rewrite (H x (or_introl eq_refl)). apply IH. intros y Hy. apply H. now right.
Qed.

Lemma Open_cases p w :
  (exists ds, Gdal.Open p w = (w, Returned ds)) \/
  Gdal.Open p w = (w, Raised (GdalError "No such file or directory")).
Proof.
  unfold Gdal.Open. destruct (find _ (rasters w)) as [kv|].
  - left. now exists (snd kv).
  - now right.
Qed.

Lemma Open_same_rasters p w w' ds :
  rasters w' = rasters w ->
  Gdal.Open p w = (w, Returned ds) -> Gdal.Open p w' = (w', Returned ds).
Proof.
  unfold Gdal.Open. intros ->. destruct (find _ (rasters w)); intros H; congruence.
Qed.

Lemma notes_of_count bs : notes_of bs = repeat note_no_nodata (count_raising bs).
Proof.
  unfold notes_of, count_raising, band_notes.
  induction bs as [|b bs IH]; cbn; [reflexivity|].
  destruct (GetNoDataValue b); cbn; now rewrite IH.
Qed.

Lemma final_axes_length lay_type st ext n bs :
  List.length (final_axes lay_type st ext n bs) = List.length bs.
Proof.
  unfold final_axes, enumerate.
  now rewrite length_map, length_combine, length_seq, Nat.min_id.
Qed.

(** Either a figure with one subplot per band is created, or the grid is
    refused and an empty figure is left, or the call only prints. *)
Lemma call_cases p lt c nb w ds :
  Gdal.Open p w = (w, Returned ds) ->
  (exists fg,
      (1 <= resolve_n_bands nb ds <= 3)%Z /\
      (resolve_n_bands nb ds <= RasterCount ds)%Z /\
      fst (plot_layer p lt c nb w)
      = mkWorld (rasters w)
          (stdout w ++ notes_of (firstn (Z.to_nat (resolve_n_bands nb ds)) (bands ds)))
          (figures w ++ [fg]) (Some "black") /\
      fig_nrows fg = 1%Z /\ fig_ncols fg = resolve_n_bands nb ds /\
      List.length (fig_axes fg) = Z.to_nat (resolve_n_bands nb ds)) \/
  ((resolve_n_bands nb ds <= 0)%Z /\
   fst (plot_layer p lt c nb w)
   = Plt.set_figures (figures w ++ [Plt.empty_figure]) w) \/
  ((0 < resolve_n_bands nb ds)%Z /\
   ((4 <= resolve_n_bands nb ds)%Z \/ (RasterCount ds < resolve_n_bands nb ds)%Z) /\
   fst (plot_layer p lt c nb w)
   = printed (notes_of (firstn (Z.to_nat (resolve_n_bands nb ds)) (bands ds))) w).
Proof.
  intros Hopen.
  set (n := resolve_n_bands nb ds).
  assert (Hbf : bands_from ds 0 (Z.to_nat n) = firstn (Z.to_nat n) (bands ds)) by reflexivity.
  destruct (Z_le_gt_dec n 0) as [H0|H0].
  { right. left. split; [exact H0|].
    now rewrite (plot_layer_no_columns p lt c nb w ds Hopen H0). }
  destruct (Z_lt_le_dec (RasterCount ds) n) as [Hgt|Hle].
  { right. right. split; [lia|]. split; [now right|].
    rewrite (plot_layer_band_missing p lt c nb w ds Hopen Hgt). cbn [fst].
    unfold RasterCount in Hgt. now rewrite firstn_all2 by lia. }
  destruct (Z_le_gt_dec 4 n) as [H4|H4].
  { right. right. split; [lia|]. split; [now left|].
    now rewrite (plot_layer_unsupported p lt c nb w ds Hopen (conj H4 Hle)). }
  assert (Hn : (1 <= n <= 3)%Z) by lia.
  assert (Hlen : List.length (bands_from ds 0 (Z.to_nat n)) = Z.to_nat n).
  { apply bands_from_all. unfold RasterCount in Hle. lia. }
  left.
  destruct (String.eqb (resolve_lay_type lt p) "ENU") eqn:E.
  - apply String.eqb_eq in E.
    rewrite (plot_layer_returns p lt c nb w ds Hopen Hn Hle (or_introl E)).
    eexists. repeat split; try lia; try reflexivity.
    cbn [final_figure fig_axes]. now rewrite final_axes_length.
  - destruct (Z.eq_dec n 1) as [H1|H1].
    + rewrite (plot_layer_returns p lt c nb w ds Hopen Hn Hle (or_intror H1)).
      eexists. repeat split; try lia; try reflexivity.
      cbn [final_figure fig_axes]. now rewrite final_axes_length.
    + rewrite (plot_layer_title_missing p lt c nb w ds Hopen ltac:(lia) Hle E).
      eexists. repeat split; try lia; try reflexivity.
      fold n. unfold stalled_figure. cbn [fig_axes].
      remember (bands_from ds 0 (Z.to_nat n)) as bs eqn:Hbs.
      rewrite <- Hlen.
      destruct bs as [|b1 [|b2 rest]]; [cbn in Hlen; lia | cbn in Hlen; lia |].
      cbn [List.length]. now rewrite length_map.
Qed.

(** X6: on a raster that opens, a call can return only if the resolved
    band count is 1, 2 or 3, the raster has that many bands, and the layer
    type is "ENU" or the count is 1; every other call raises. *)
Theorem X6_call_returns_only_if p lt c nb w ds :
  Gdal.Open p w = (w, Returned ds) ->
  snd (plot_layer p lt c nb w) = Returned tt ->
  (1 <= resolve_n_bands nb ds <= 3)%Z /\
  (resolve_n_bands nb ds <= RasterCount ds)%Z /\
  (resolve_lay_type lt p = "ENU" \/ resolve_n_bands nb ds = 1%Z).
Proof.
  intros Hopen H.
  apply (plot_layer_returned_inv p lt c nb w ds (fst (plot_layer p lt c nb w)) Hopen).
  rewrite <- H. now destruct (plot_layer p lt c nb w).
Qed.

Lemma X6_returns_witness :
  (1 <= resolve_n_bands None three_bands <= 3)%Z /\
  (resolve_n_bands None three_bands <= RasterCount three_bands)%Z /\
  (resolve_lay_type None "ENU/los.tif" = "ENU" \/ resolve_n_bands None three_bands = 1%Z).
Proof.
  exact (X6_call_returns_only_if "ENU/los.tif" None None None disk three_bands
           eq_refl eq_refl).
Defined.

(** X7: a path that is not among the rasters GDAL can open makes the call
    raise GDAL's error at once: nothing is printed, no figure is created
    and the shared colormap is not touched. *)
Theorem X7_unopenable_path_changes_nothing p lt c nb w :
  (forall kv, In kv (rasters w) -> fst kv <> p) ->
  plot_layer p lt c nb w = (w, Raised (GdalError "No such file or directory")).
Proof.
  intros H. apply plot_layer_open_fails. unfold Gdal.Open.
  rewrite find_none_of; [reflexivity|].
  intros kv Hin. apply String.eqb_neq. now apply H.
Qed.

Lemma X7_unopenable_witness :
  plot_layer "missing.tif" None None None (fresh [("stack.tif", four_bands)])
  = (fresh [("stack.tif", four_bands)], Raised (GdalError "No such file or directory")).
Proof.
  apply X7_unopenable_path_changes_nothing.
  intros kv [<-|[]]. simpl. discriminate.
Defined.

(** X8: a negative band count, or a raster without bands when the count
    is omitted or 0, makes [plt.subplots] raise a ValueError; no band is
    read, nothing is printed and the shared colormap is not touched, but
    pyplot is left with one new figure that has no subplot. *)
Theorem X8_no_columns_is_a_value_error p lt c nb w ds :
  Gdal.Open p w = (w, Returned ds) ->
  (exists k, nb = Some k /\ (k < 0)%Z) \/
  ((nb = None \/ nb = Some 0%Z) /\ bands ds = []) ->
  snd (plot_layer p lt c nb w)
  = Raised (ValueError "Number of columns must be a positive integer") /\
  rasters (fst (plot_layer p lt c nb w)) = rasters w /\
  stdout (fst (plot_layer p lt c nb w)) = stdout w /\
  Greys_r_under (fst (plot_layer p lt c nb w)) = Greys_r_under w /\
  exists fg,
    figures (fst (plot_layer p lt c nb w)) = figures w ++ [fg] /\
    fig_axes fg = [].
Proof.
  intros Hopen H.
  rewrite (plot_layer_no_columns p lt c nb w ds Hopen).
  - repeat split. now exists Plt.empty_figure.
  - unfold resolve_n_bands, RasterCount.
    destruct H as [(k & -> & Hk) | ([-> | ->] & ->)]; cbn; try lia.
    destruct (k =? 0)%Z eqn:E; [apply Z.eqb_eq in E; lia | lia].
Qed.

Lemma X8_no_columns_witness :
  snd (plot_layer "stack.tif" None None (Some (-1)%Z) disk)
  = Raised (ValueError "Number of columns must be a positive integer") /\
  rasters (fst (plot_layer "stack.tif" None None (Some (-1)%Z) disk)) = rasters disk /\
  stdout (fst (plot_layer "stack.tif" None None (Some (-1)%Z) disk)) = stdout disk /\
  Greys_r_under (fst (plot_layer "stack.tif" None None (Some (-1)%Z) disk))
  = Greys_r_under disk /\
  exists fg,
    figures (fst (plot_layer "stack.tif" None None (Some (-1)%Z) disk))
    = figures disk ++ [fg] /\
    fig_axes fg = [].
Proof.
  apply (X8_no_columns_is_a_value_error "stack.tif" None None (Some (-1)%Z) disk four_bands
           eq_refl).
  left. exists (-1)%Z. split; [reflexivity | reflexivity].
Defined.

(** X9: whatever its arguments and however it ends, a call leaves the
    rasters as they were, only appends copies of the no-data note to what
    was printed, and never changes a figure that existed before: the
    figures are the old ones, or the old ones followed by one new
    figure. *)
Theorem X9_call_only_appends p lt c nb w :
  rasters (fst (plot_layer p lt c nb w)) = rasters w /\
  (exists k, stdout (fst (plot_layer p lt c nb w))
             = stdout w ++ repeat note_no_nodata k) /\
  (figures (fst (plot_layer p lt c nb w)) = figures w \/
   exists fg, figures (fst (plot_layer p lt c nb w)) = figures w ++ [fg]).
Proof.
  destruct (Open_cases p w) as [[ds Hopen] | Hfail].
  - destruct (call_cases p lt c nb w ds Hopen)
      as [(fg & _ & _ & -> & _) | [(_ & ->) | (_ & _ & ->)]];
      cbn [fst rasters stdout figures printed Plt.set_figures].
    + split; [reflexivity|]. split; [|right; now exists fg].
      eexists. now rewrite notes_of_count.
    + split; [reflexivity|]. split; [|right; now exists Plt.empty_figure].
      exists 0%nat. cbn. now rewrite app_nil_r.
    + split; [reflexivity|]. split; [|now left].
      eexists. now rewrite notes_of_count.
  - rewrite (plot_layer_open_fails p lt c nb w _ _ Hfail). cbn [fst].
    split; [reflexivity|]. split; [|now left].
    exists 0%nat. cbn. now rewrite app_nil_r.
Qed.

(** X10: on a raster that opens, the call prints the no-data note once for
    each band among those it reads (the first [n_bands], or all when there
    are fewer) whose no-data lookup raises, and nothing else, however the
    call ends. *)
Theorem X10_one_note_per_failed_lookup p lt c nb w ds :
  Gdal.Open p w = (w, Returned ds) ->
  stdout (fst (plot_layer p lt c nb w))
  = stdout w ++ repeat note_no_nodata
                  (count_raising (firstn (Z.to_nat (resolve_n_bands nb ds)) (bands ds))).
Proof.
  intros Hopen.
  destruct (call_cases p lt c nb w ds Hopen)
    as [(fg & _ & _ & -> & _) | [(H0 & ->) | (_ & _ & ->)]];
    cbn [fst stdout printed Plt.set_figures]; try now rewrite notes_of_count.
  replace (Z.to_nat (resolve_n_bands nb ds)) with 0%nat by lia.
  cbn. now rewrite app_nil_r.
Qed.

Lemma X10_notes_witness :
  stdout (fst (plot_layer "stack.tif" None None None disk)) = [note_no_nodata].
Proof.
  exact (X10_one_note_per_failed_lookup "stack.tif" None None None disk four_bands eq_refl).
Defined.

(** X11: on a raster that opens, a figure with one row and one subplot per
    band is created and the "under" colour of the shared [Greys_r] colormap
    is set to black exactly when the resolved band count is 1, 2 or 3 and
    the raster has that many bands, even if the call then fails for want
    of a title.  With a band count of 0 or less the colormap is left alone
    and a figure without subplots is left behind; with a band count of 4
    or more, or more than the raster has, the colormap is left alone and
    no figure is created. *)
Theorem X11_figure_and_colormap_side_effects p lt c nb w ds :
  Gdal.Open p w = (w, Returned ds) ->
  ((1 <= resolve_n_bands nb ds <= 3)%Z /\ (resolve_n_bands nb ds <= RasterCount ds)%Z ->
   Greys_r_under (fst (plot_layer p lt c nb w)) = Some "black" /\
   exists fg,
     figures (fst (plot_layer p lt c nb w)) = figures w ++ [fg] /\
     fig_nrows fg = 1%Z /\ fig_ncols fg = resolve_n_bands nb ds /\
     List.length (fig_axes fg) = Z.to_nat (resolve_n_bands nb ds)) /\
  ((resolve_n_bands nb ds <= 0)%Z ->
   Greys_r_under (fst (plot_layer p lt c nb w)) = Greys_r_under w /\
   exists fg,
     figures (fst (plot_layer p lt c nb w)) = figures w ++ [fg] /\
     fig_axes fg = []) /\
  ((0 < resolve_n_bands nb ds)%Z /\
   ((4 <= resolve_n_bands nb ds)%Z \/ (RasterCount ds < resolve_n_bands nb ds)%Z) ->
   Greys_r_under (fst (plot_layer p lt c nb w)) = Greys_r_under w /\
   figures (fst (plot_layer p lt c nb w)) = figures w).
Proof.
  intros Hopen.
  destruct (call_cases p lt c nb w ds Hopen)
    as [(fg & Hn & Hle & -> & Hr & Hc & Hl) | [(H0 & ->) | (Hpos & Hbig & ->)]];
    cbn [fst figures Greys_r_under printed Plt.set_figures];
    (split; [|split]); intros H; try lia.
  - split; [reflexivity|]. now exists fg.
  - split; [reflexivity|]. now exists Plt.empty_figure.
  - now split.
Qed.

Lemma X11_side_effects_witness :
  Greys_r_under (fst (plot_layer "products/coherence/pair.tif" None None None disk))
  = Some "black".
Proof.
  refine (proj1 (proj1 (X11_figure_and_colormap_side_effects
                          "products/coherence/pair.tif" None None None disk two_bands
                          eq_refl) _)).
  vm_compute. intuition discriminate.
Defined.

(* ------------------------------------------------------------------ *)
(** ** The subplots of a call that returns *)

Lemma enumerate_nth_inv {A} (l : list A) : forall s i ia,
  nth_error (combine (seq s (List.length l)) l) i = Some ia ->
  fst ia = (s + i)%nat /\ nth_error l i = Some (snd ia).
Proof.
  induction l as [|x l IH]; intros s [|i] ia H; cbn in *; try discriminate.
  - inversion H. cbn. split; [lia | reflexivity].
  - destruct (IH (S s) i ia H) as [H1 H2]. split; [lia | exact H2].
Qed.

Lemma final_axes_nth_inv lay_type st ext n bs i ax :
  nth_error (final_axes lay_type st ext n bs) i = Some ax ->
  exists b,
    nth_error bs i = Some b /\
    ax = labelled n i (drawn lay_type st ext (masked_band b)
                             (nth i (title_of st) "") blank_axes).
Proof.
  unfold final_axes, enumerate. rewrite nth_error_map.
  destruct (nth_error (combine _ bs) i) as [[j b]|] eqn:E; [|discriminate].
  destruct (enumerate_nth_inv bs 0 i (j, b) E) as [Hj Hb]. cbn in Hj, Hb. subst j.
  cbn. intros H. inversion H. now exists b.
Qed.

(** The figure of a call that returns. *)
Lemma returned_figure p lt c nb w ds w' :
  Gdal.Open p w = (w, Returned ds) ->
  plot_layer p lt c nb w = (w', Returned tt) ->
  figures w'
  = figures w ++
    [final_figure (resolve_lay_type lt p)
       (style_for (resolve_lay_type lt p) [OsPath.basename (resolve_lay_type lt p)])
       (compute_extent ds) (resolve_n_bands nb ds)
       (bands_from ds 0 (Z.to_nat (resolve_n_bands nb ds)))].
Proof.
  intros Hopen Hrun.
  destruct (plot_layer_returned_inv p lt c nb w ds w' Hopen Hrun) as (Hn & Hc & Ht).
  rewrite (plot_layer_returns p lt c nb w ds Hopen Hn Hc Ht) in Hrun.
  now inversion Hrun.
Qed.

(** X12: in a call that returns, the y-axis label "latitude" is on the
    first subplot and on no other, and the x-axis label "longitude" is on
    subplot [floor(n_bands/2)] and on no other: the only subplot of one,
    the second of two, the second of three. *)
Theorem X12_axis_labels p lt c nb w ds w' :
  Gdal.Open p w = (w, Returned ds) ->
  plot_layer p lt c nb w = (w', Returned tt) ->
  exists fg,
    figures w' = figures w ++ [fg] /\
    (resolve_n_bands nb ds = 1%Z \/ resolve_n_bands nb ds = 2%Z \/
     resolve_n_bands nb ds = 3%Z) /\
    forall i ax,
      nth_error (fig_axes fg) i = Some ax ->
      ax_ylabel ax = (if (i =? 0)%nat then Some "latitude" else None) /\
      ax_xlabel ax = (if (i =? (if (resolve_n_bands nb ds =? 1)%Z then 0 else 1))%nat
                      then Some "longitude" else None).
Proof.
  intros Hopen Hrun.
  destruct (plot_layer_returned_inv p lt c nb w ds w' Hopen Hrun) as (Hn & _ & _).
  rewrite (returned_figure p lt c nb w ds w' Hopen Hrun).
  eexists. split; [reflexivity|]. split; [lia|].
  intros i ax Hax. cbn [final_figure fig_axes] in Hax.
  destruct (final_axes_nth_inv _ _ _ _ _ _ _ Hax) as (b & _ & ->).
  assert (Hm : Z.to_nat (resolve_n_bands nb ds / 2)
               = if (resolve_n_bands nb ds =? 1)%Z then 0%nat else 1%nat).
  { assert (Hcases : resolve_n_bands nb ds = 1%Z \/ resolve_n_bands nb ds = 2%Z
                     \/ resolve_n_bands nb ds = 3%Z) by lia.
    destruct Hcases as [-> | [-> | ->]]; reflexivity. }
  unfold labelled. rewrite Hm.
  destruct (i =? 0)%nat;
    destruct (i =? (if (resolve_n_bands nb ds =? 1)%Z then 0 else 1))%nat;
    split; reflexivity.
Qed.

Lemma X12_axis_labels_witness :
  exists fg,
    figures (fst (plot_layer "ENU/los.tif" None None None disk)) = figures disk ++ [fg] /\
    forall ax, nth_error (fig_axes fg) 1 = Some ax ->
               ax_ylabel ax = None /\ ax_xlabel ax = Some "longitude".
Proof.
  destruct (X12_axis_labels "ENU/los.tif" None None None disk three_bands
              (fst (plot_layer "ENU/los.tif" None None None disk)) eq_refl eq_refl)
    as (fg & Hf & _ & Hlab).
  exists fg. split; [exact Hf|]. intros ax Hax. exact (Hlab 1%nat ax Hax).
Defined.

(** X13: in a call that returns, every subplot has an image, a title, its
    grid switched off, and a colorbar on its right that takes 5% of the
    width with a padding of 0.25. *)
Theorem X13_every_subplot_is_complete p lt c nb w ds w' :
  Gdal.Open p w = (w, Returned ds) ->
  plot_layer p lt c nb w = (w', Returned tt) ->
  exists fg,
    figures w' = figures w ++ [fg] /\
    List.length (fig_axes fg) = Z.to_nat (resolve_n_bands nb ds) /\
    forall ax, In ax (fig_axes fg) ->
      ax_grid ax = Some false /\
      (exists im, ax_image ax = Some im) /\
      (exists t, ax_title ax = Some t) /\
      (exists cb, ax_colorbar ax = Some cb /\
                  cb_side cb = "right" /\ cb_size cb = "5%" /\
                  cb_pad cb = 0.25%float).
Proof.
  intros Hopen Hrun.
  destruct (plot_layer_returned_inv p lt c nb w ds w' Hopen Hrun) as (Hn & Hc & _).
  rewrite (returned_figure p lt c nb w ds w' Hopen Hrun).
  eexists. split; [reflexivity|]. cbn [final_figure fig_axes]. split.
  - rewrite final_axes_length. apply bands_from_all. unfold RasterCount in Hc. lia.
  - intros ax Hin. apply In_nth_error in Hin as [i Hi].
    destruct (final_axes_nth_inv _ _ _ _ _ _ _ Hi) as (b & _ & ->).
    unfold labelled.
    destruct (i =? 0)%nat; destruct (i =? Z.to_nat (resolve_n_bands nb ds / 2))%nat;
      cbn; (split; [reflexivity|]); (split; [eexists; reflexivity|]);
      (split; [eexists; reflexivity|]); eexists; repeat split; reflexivity.
Qed.

Lemma X13_complete_witness :
  exists fg,
    figures (fst (plot_layer "topoHeight/dem.tif" None None None disk))
    = figures disk ++ [fg] /\
    List.length (fig_axes fg) = 1%nat.
Proof.
  destruct (X13_every_subplot_is_complete "topoHeight/dem.tif" None None None disk one_band
              (fst (plot_layer "topoHeight/dem.tif" None None None disk)) eq_refl eq_refl)
    as (fg & Hf & Hl & _).
  exists fg. split; [exact Hf | exact Hl].
Defined.

(** X14: calls do not interfere: the figure a returning call appends
    depends on the rasters only, not on the figures already there, on what
    was printed or on the state of the shared colormap; in particular a
    second identical call appends an identical figure. *)
Theorem X14_figure_does_not_depend_on_earlier_calls p lt c nb w w1 w2 :
  rasters w2 = rasters w ->
  plot_layer p lt c nb w = (w1, Returned tt) ->
  exists fg w3 w4,
    figures w1 = figures w ++ [fg] /\
    plot_layer p lt c nb w2 = (w3, Returned tt) /\
    figures w3 = figures w2 ++ [fg] /\
    plot_layer p lt c nb w1 = (w4, Returned tt) /\
    figures w4 = figures w ++ [fg; fg].
Proof.
  intros Hr Hrun.
  destruct (Open_cases p w) as [[ds Hopen] | Hfail].
  2:{ rewrite (plot_layer_open_fails p lt c nb w _ _ Hfail) in Hrun. discriminate Hrun. }
  destruct (plot_layer_returned_inv p lt c nb w ds w1 Hopen Hrun) as (Hn & Hc & Ht).
  pose proof (Open_same_rasters p w w2 ds Hr Hopen) as Hopen2.
  assert (Hr1 : rasters w1 = rasters w).
  { rewrite (plot_layer_returns p lt c nb w ds Hopen Hn Hc Ht) in Hrun. now inversion Hrun. }
  pose proof (Open_same_rasters p w w1 ds Hr1 Hopen) as Hopen1.
  rewrite (plot_layer_returns p lt c nb w2 ds Hopen2 Hn Hc Ht).
  rewrite (plot_layer_returns p lt c nb w1 ds Hopen1 Hn Hc Ht).
  rewrite (returned_figure p lt c nb w ds w1 Hopen Hrun).
  do 3 eexists. split; [reflexivity|]. split; [reflexivity|].
  cbn [figures]. split; [reflexivity|]. split; [reflexivity|].
  now rewrite <- app_assoc.
Qed.

Lemma X14_independence_witness :
  exists fg w4,
    plot_layer "topoHeight/dem.tif" None None None
               (fst (plot_layer "topoHeight/dem.tif" None None None disk))
    = (w4, Returned tt) /\
    figures w4 = figures disk ++ [fg; fg].
Proof.
  destruct (X14_figure_does_not_depend_on_earlier_calls
              "topoHeight/dem.tif" None None None disk
              (fst (plot_layer "topoHeight/dem.tif" None None None disk)) disk
              eq_refl eq_refl) as (fg & w3 & w4 & _ & _ & _ & H1 & H2).
  exists fg, w4. split; [exact H1 | exact H2].
Defined.

(** X15: a call with layer type "ENU" that returns widens the spacing of
    its figure to 0.5 and draws every subplot in [Greys_r] without bounds,
    with colorbar labels of three decimals; a returning call with another
    layer type leaves the spacing alone. *)
Theorem X15_ENU_presentation p lt c nb w ds w' :
  Gdal.Open p w = (w, Returned ds) ->
  plot_layer p lt c nb w = (w', Returned tt) ->
  exists fg,
    figures w' = figures w ++ [fg] /\
    (resolve_lay_type lt p = "ENU" ->
     fig_wspace fg = Some 0.5%float /\
     forall ax, In ax (fig_axes fg) ->
       exists im cb,
         ax_image ax = Some im /\ ax_colorbar ax = Some cb /\
         im_cmap im = cm_Greys_r /\ im_vmin im = None /\ im_vmax im = None /\
         cb_style cb = cb_format3) /\
    (resolve_lay_type lt p <> "ENU" -> fig_wspace fg = None).
Proof.
  intros Hopen Hrun.
  rewrite (returned_figure p lt c nb w ds w' Hopen Hrun).
  eexists. split; [reflexivity|]. cbn [final_figure fig_wspace fig_axes]. split.
  - intros ->. split; [reflexivity|].
    intros ax Hin. apply In_nth_error in Hin as [i Hi].
    destruct (final_axes_nth_inv _ _ _ _ _ _ _ Hi) as (b & _ & ->).
    unfold labelled.
    destruct (i =? 0)%nat; destruct (i =? Z.to_nat (resolve_n_bands nb ds / 2))%nat;
      do 2 eexists; repeat split; reflexivity.
  - intros Hne. apply String.eqb_neq in Hne. now rewrite Hne.
Qed.

Lemma X15_ENU_witness :
  exists fg,
    figures (fst (plot_layer "ENU/los.tif" None None None disk)) = figures disk ++ [fg] /\
    fig_wspace fg = Some 0.5%float.
Proof.
  destruct (X15_ENU_presentation "ENU/los.tif" None None None disk three_bands
              (fst (plot_layer "ENU/los.tif" None None None disk)) eq_refl eq_refl)
    as (fg & Hf & HE & _).
  exists fg. split; [exact Hf | exact (proj1 (HE eq_refl))].
Defined.

(* ------------------------------------------------------------------ *)
(** ** Masks and NaN *)

Lemma nan_not_above (t v : float) : PrimFloat.is_nan v = true -> PrimFloat.ltb t v = false.
Proof.
  intros H. rewrite ltb_spec. unfold Prim2SF at 2. rewrite H.
  unfold SFltb, SFcompare. now destruct (Prim2SF t).
Qed.

Lemma nan_not_equal_l (v s : float) : PrimFloat.is_nan v = true -> PrimFloat.eqb v s = false.
Proof.
  intros H. rewrite eqb_spec. unfold Prim2SF at 1. now rewrite H.
Qed.

Lemma nan_not_equal_r (v s : float) : PrimFloat.is_nan s = true -> PrimFloat.eqb v s = false.
Proof.
  intros H. rewrite eqb_spec. unfold Prim2SF at 2. rewrite H.
  unfold SFeqb, SFcompare. now destruct (Prim2SF v).
Qed.

(** X17: NaN is never masked by the loading loop: a NaN pixel is neither
    above the threshold nor equal to any no-data value, and a NaN no-data
    value masks nothing, so that the mask is then the threshold mask
    alone. *)
Theorem X17_nan_is_never_masked ds acc i b w :
  nth_error (bands ds) i = Some b ->
  exists w' arr,
    load_band ds acc i w = (w', Returned (acc ++ [arr])) /\
    (forall r c v,
        Np.at2 (ReadAsArray b) r c = Some v ->
        PrimFloat.is_nan v = true ->
        Np.at2 (Np.ma_mask arr) r c = Some false) /\
    (forall s,
        GetNoDataValue b = NoDataIs (Some s) ->
        PrimFloat.is_nan s = true ->
        Np.ma_mask arr = Np.gt (ReadAsArray b) threshold).
Proof.
  intros Hb. rewrite (load_band_some ds acc i b w Hb).
  do 2 eexists. split; [reflexivity|]. rewrite masked_band_mask. split.
  - intros r c v Hv Hnan. rewrite at2_elementwise, Hv. cbn. f_equal.
    unfold is_masked, equals_sentinel. rewrite (nan_not_above _ _ Hnan).
    destruct (sentinel_of b); [apply nan_not_equal_l; exact Hnan | reflexivity].
  - intros s Hs Hnan. unfold Np.gt, Np.elementwise.
    apply map_ext. intros row. apply map_ext. intros v.
    unfold is_masked, equals_sentinel, sentinel_of. rewrite Hs.
    now rewrite (nan_not_equal_r v s Hnan), orb_false_r.
Qed.

Lemma X17_nan_witness :
  exists w' arr,
    load_band (tile [mkBand [[nan; 3e20%float]] (NoDataIs (Some nan))]) [] 0 disk
    = (w', Returned ([] ++ [arr])) /\
    Np.ma_mask arr = [[false; true]].
Proof.
  destruct (X17_nan_is_never_masked
              (tile [mkBand [[nan; 3e20%float]] (NoDataIs (Some nan))]) [] 0
              (mkBand [[nan; 3e20%float]] (NoDataIs (Some nan))) disk eq_refl)
    as (w' & arr & H1 & _ & H2).
  exists w', arr. split; [exact H1|]. exact (H2 nan eq_refl eq_refl).
Defined.

(* ------------------------------------------------------------------ *)
(** ** Titles *)

Lemma rfind_succ_le c s : (PyStr.rfind_succ c s <= String.length s)%nat.
Proof.
  induction s as [|a s IH]; cbn; [lia|].
  destruct (PyStr.rfind_succ c s); [destruct (Ascii.eqb a c); lia | lia].
Qed.

Lemma rfind_succ_0 c s :
  PyStr.rfind_succ c s = 0%nat <-> ~ In c (list_ascii_of_string s).
Proof.
  induction s as [|a s IH]; cbn; [tauto|].
  destruct (PyStr.rfind_succ c s) as [|k].
  - destruct (Ascii.eqb a c) eqn:E.
    + apply Ascii.eqb_eq in E. split; [discriminate | intros H; elim H; now left].
    + apply Ascii.eqb_neq in E. split; [|reflexivity].
      intros _ [H|H]; [now elim E | now apply (proj1 IH)].
  - split; [discriminate|]. intros H. exfalso.
    assert (Hs : ~ In c (list_ascii_of_string s)) by (intros Hin; apply H; now right).
    apply (proj2 IH) in Hs. discriminate Hs.
Qed.

Lemma drop_succ n a s : PyStr.drop (S n) (String a s) = PyStr.drop n s.
Proof. reflexivity. Qed.

Lemma drop_0 s : PyStr.drop 0 s = s.
Proof.
  unfold PyStr.drop. rewrite Nat.sub_0_r.
  induction s as [|a s IH]; cbn; [reflexivity|]. f_equal.
  destruct s; [reflexivity | exact IH].
Qed.

Lemma basename_no_sep p : PyStr.rfind_succ OsPath.sep (OsPath.basename p) = 0%nat.
Proof.
  unfold OsPath.basename. induction p as [|a p IH]; [reflexivity|].
  cbn [PyStr.rfind_succ].
  destruct (PyStr.rfind_succ OsPath.sep p) as [|k] eqn:E.
  - destruct (Ascii.eqb a OsPath.sep) eqn:Ea.
    + rewrite drop_succ, drop_0. exact E.
    + rewrite drop_0. cbn [PyStr.rfind_succ]. now rewrite E, Ea.
  - rewrite drop_succ. exact IH.
Qed.

Lemma basename_is_suffix p :
  p = (PyStr.take (PyStr.rfind_succ OsPath.sep p) p ++ OsPath.basename p)%string.
Proof. apply take_drop, rfind_succ_le. Qed.

(** X18: in a one-band call with a layer type other than "ENU" the title
    is the part of the resolved layer type after its last "/": it contains
    no "/", the layer type ends with it, and it is the layer type itself
    when that contains no "/". *)
Theorem X18_title_is_the_last_segment p lt c nb w ds :
  Gdal.Open p w = (w, Returned ds) ->
  resolve_n_bands nb ds = 1%Z ->
  (1 <= RasterCount ds)%Z ->
  String.eqb (resolve_lay_type lt p) "ENU" = false ->
  exists w' ax t,
    plot_layer p lt c nb w = (w', Returned tt) /\
    figures w' = figures w ++ [mkFigure 1 1 None [ax]] /\
    ax_title ax = Some t /\
    ~ In "/"%char (list_ascii_of_string t) /\
    (exists pre, resolve_lay_type lt p = (pre ++ t)%string) /\
    (~ In "/"%char (list_ascii_of_string (resolve_lay_type lt p)) ->
     t = resolve_lay_type lt p).
Proof.
  intros Hopen H1 Hc E.
  destruct (single_band_call p lt c nb w ds Hopen H1 Hc E) as (b1 & _ & Hrun).
  rewrite Hrun. do 3 eexists. cbn [figures].
  split; [reflexivity|]. split; [reflexivity|].
  cbn [with_xlabel with_ylabel drawn ax_title]. split; [reflexivity|].
  split; [|split].
  - apply rfind_succ_0, basename_no_sep.
  - eexists. apply basename_is_suffix.
  - intros Hno. apply rfind_succ_0 in Hno.
    unfold OsPath.basename, OsPath.sep. rewrite Hno. apply drop_0.
Qed.

Lemma X18_title_witness :
  exists w' ax t,
    plot_layer "products/coherence/pair.tif" None None (Some 1%Z) disk = (w', Returned tt) /\
    figures w' = figures disk ++ [mkFigure 1 1 None [ax]] /\
    ax_title ax = Some t /\
    ~ In "/"%char (list_ascii_of_string t).
Proof.
  destruct (X18_title_is_the_last_segment
              "products/coherence/pair.tif" None None (Some 1%Z) disk two_bands
              eq_refl eq_refl ltac:(vm_compute; discriminate) eq_refl)
    as (w' & ax & t & H1 & H2 & H3 & H4 & _).
  exists w', ax, t. repeat split; assumption.
Defined.

(** X19: when a non-empty layer type is passed, the path serves only to
    open the raster: two paths that GDAL opens to the same result give the
    same call, whatever their directories are called. *)
Theorem X19_explicit_type_ignores_the_directory p1 p2 s c nb w :
  s <> "" ->
  Gdal.Open p1 w = Gdal.Open p2 w ->
  plot_layer p1 (Some s) c nb w = plot_layer p2 (Some s) c nb w.
Proof.
  intros Hs Hopen. unfold plot_layer.
  assert (E : forall p, resolve_lay_type (Some s) p = s).
  { intros p. unfold resolve_lay_type, PyStr.falsy. destruct s; [now elim Hs | reflexivity]. }
  rewrite !E. unfold bind at 1. unfold bind at 7. rewrite Hopen. reflexivity.
Qed.

Lemma X19_explicit_type_witness :
  plot_layer "a/b/water/x.tif" (Some "topoHeight") None None disk
  = plot_layer "topoHeight/dem.tif" (Some "topoHeight") None None disk.
Proof.
  apply X19_explicit_type_ignores_the_directory; [discriminate | reflexivity].
Defined.
